(** * Poker hand evaluator: the classification routine [evaluateHand]

    Shallow embedding of [evaluateHand] from
    [src/app/components/PokerHandEvaluator.tsx], together with the
    properties of the hand classification it computes, and of the
    selection state around it: [toggleCard], the Reset handler, [allCards]
    and the conditions under which the component renders its parts.

    JavaScript numbers are modelled as [Z] (only small integers occur),
    arrays as [list], the result type [HandRank] (a union of ten string
    literals and [null]) as an [option] over a ten-constructor enumeration,
    and the two frequency objects as association lists that keep the
    property order [Object.values] enumerates. *)

From Stdlib Require Import ZArith List Bool Lia String Ascii.
From Stdlib Require Import Permutation Sorted DecimalString.
Import ListNotations.

Local Open Scope Z_scope.

(** ** Types for cards and poker hands *)

Inductive Suit : Type := hearts | diamonds | clubs | spades.

Inductive Rank : Type :=
  | R2 | R3 | R4 | R5 | R6 | R7 | R8 | R9 | R10 | RJ | RQ | RK | RA.

Record PlayingCard : Type := mkCard { suit : Suit; rank : Rank }.

(** The ten string literals of [HandRank]. *)
Inductive HandName : Type :=
  | RoyalFlush
  | StraightFlush
  | FourOfAKind
  | FullHouse
  | Flush
  | Straight
  | ThreeOfAKind
  | TwoPair
  | Pair
  | HighCard.

(** [HandRank] itself: one of the ten names, or [null] ([None]). *)
Definition HandRank : Type := option HandName.

Definition Suit_eqb (a b : Suit) : bool :=
  match a, b with
  | hearts, hearts | diamonds, diamonds | clubs, clubs | spades, spades => true
  | _, _ => false
  end.

Definition Rank_eqb (a b : Rank) : bool :=
  match a, b with
  | R2, R2 | R3, R3 | R4, R4 | R5, R5 | R6, R6 | R7, R7 | R8, R8
  | R9, R9 | R10, R10 | RJ, RJ | RQ, RQ | RK, RK | RA, RA => true
  | _, _ => false
  end.

Definition suits : list Suit := [hearts; diamonds; clubs; spades].

Definition ranks : list Rank :=
  [R2; R3; R4; R5; R6; R7; R8; R9; R10; RJ; RQ; RK; RA].

(** ** The JavaScript built-ins the routine uses *)

Module JS.

(** [Array.prototype.indexOf]: first position of [x], or [-1]. *)
Fixpoint indexOf_from {A : Type} (eqb : A -> A -> bool)
    (l : list A) (x : A) (i : Z) : Z :=
  match l with
  | [] => -1
  | y :: l' => if eqb y x then i else indexOf_from eqb l' x (i + 1)
  end.

Definition indexOf {A : Type} (eqb : A -> A -> bool) (l : list A) (x : A) : Z :=
  indexOf_from eqb l x 0.

(** [Array.prototype.sort] with a comparator: a stable sort that puts [a]
    before [b] when [cmp a b <= 0].  Modelled as a stable insertion sort. *)
Section Sort.
Context {A : Type} (cmp : A -> A -> Z).

Fixpoint insert (x : A) (l : list A) : list A :=
  match l with
  | [] => [x]
  | y :: l' => if cmp x y <=? 0 then x :: y :: l' else y :: insert x l'
  end.

Fixpoint sort (l : list A) : list A :=
  match l with
  | [] => []
  | x :: l' => insert x (sort l')
  end.

End Sort.

(** [Array.prototype.every] with the element and its index. *)
Fixpoint every_from {A : Type} (f : A -> nat -> bool) (l : list A) (i : nat) : bool :=
  match l with
  | [] => true
  | x :: l' => f x i && every_from f l' (S i)
  end.

Definition every {A : Type} (f : A -> nat -> bool) (l : list A) : bool :=
  every_from f l 0%nat.

(** [Array.prototype.some]. *)
Definition some {A : Type} (f : A -> bool) (l : list A) : bool := existsb f l.

(** [Number.prototype.toString] on an integer. *)
Definition toString (n : Z) : string := NilZero.string_of_int (Z.to_int n).

(** [Array.prototype.join] with its default separator, a comma. *)
Fixpoint join (l : list Z) : string :=
  match l with
  | [] => EmptyString
  | [x] => toString x
  | x :: l' => (toString x ++ "," ++ join l')%string
  end.

(** [a[i] === n]: an index out of range reads [undefined], which is
    strictly equal to no number. *)
Definition at_is (a : list Z) (i : nat) (n : Z) : bool :=
  match nth_error a i with
  | Some v => v =? n
  | None => false
  end.

(** [x || 0] where [x] is a property read: [undefined] and [0] are falsy. *)
Definition or0 (x : option Z) : Z :=
  match x with
  | Some v => if v =? 0 then 0 else v
  | None => 0
  end.

(** An object used as a map from keys to numbers.  The list holds the
    properties in the order [Object.values] enumerates them. *)
Definition Record (K : Type) : Type := list (K * Z).

Section Props.
Context {K : Type} (eqb : K -> K -> bool).

Fixpoint get (o : Record K) (k : K) : option Z :=
  match o with
  | [] => None
  | (k', v) :: o' => if eqb k' k then Some v else get o' k
  end.

(** Assignment to a string-keyed property: an existing property keeps
    its place, a new one is enumerated last. *)
Fixpoint set (o : Record K) (k : K) (v : Z) : Record K :=
  match o with
  | [] => [(k, v)]
  | (k', v') :: o' =>
      if eqb k' k then (k, v) :: o' else (k', v') :: set o' k v
  end.

End Props.

(** Assignment to an integer-keyed property: integer keys are enumerated
    in ascending numeric order whatever the order of creation. *)
Fixpoint set_index (o : Record Z) (k : Z) (v : Z) : Record Z :=
  match o with
  | [] => [(k, v)]
  | (k', v') :: o' =>
      if k' =? k then (k, v) :: o'
      else if k <? k' then (k, v) :: (k', v') :: o'
      else (k', v') :: set_index o' k v
  end.

Definition Object_values {K : Type} (o : Record K) : list Z := map snd o.

End JS.

(** ** Poker hand evaluation logic *)

(** The comparator [(a, b) => a - b]. *)
Definition ascending (a b : Z) : Z := a - b.

(** The comparator [(a, b) => b - a]. *)
Definition descending (a b : Z) : Z := b - a.

Definition values (selectedCards : list PlayingCard) : list Z :=
  JS.sort ascending
    (map (fun card => JS.indexOf Rank_eqb ranks (rank card) + 2) selectedCards).

(** The callback of the [reduce] that builds [suitsCount]. *)
Definition suitStep (acc : JS.Record Suit) (card : PlayingCard) : JS.Record Suit :=
  JS.set Suit_eqb acc (suit card) (JS.or0 (JS.get Suit_eqb acc (suit card)) + 1).

Definition suitsCount (selectedCards : list PlayingCard) : JS.Record Suit :=
  fold_left suitStep selectedCards [].

(** The callback of the [reduce] that builds [valueCount]. *)
Definition valueStep (acc : JS.Record Z) (val : Z) : JS.Record Z :=
  JS.set_index acc val (JS.or0 (JS.get Z.eqb acc val) + 1).

Definition valueCount (values : list Z) : JS.Record Z :=
  fold_left valueStep values [].

Definition isFlush (suitsCount : JS.Record Suit) : bool :=
  JS.some (fun count => count =? 5) (JS.Object_values suitsCount).

Definition isStraight (values : list Z) : bool :=
  JS.every
    (fun val i =>
       (i =? 0)%nat
       || match nth_error values (i - 1) with
          | Some prev => val =? prev + 1
          | None => false
          end)
    values
  || String.eqb (JS.join values) "2,3,4,5,14".

Definition counts (valueCount : JS.Record Z) : list Z :=
  JS.sort descending (JS.Object_values valueCount).

(** The chain of guards of [evaluateHand], from highest to lowest rank. *)
Definition rankOf (isFlush isStraight : bool) (values counts : list Z) : HandName :=
  if isFlush && isStraight && JS.at_is values 4 14 then RoyalFlush
  else if isFlush && isStraight then StraightFlush
  else if JS.at_is counts 0 4 then FourOfAKind
  else if JS.at_is counts 0 3 && JS.at_is counts 1 2 then FullHouse
  else if isFlush then Flush
  else if isStraight then Straight
  else if JS.at_is counts 0 3 then ThreeOfAKind
  else if JS.at_is counts 0 2 && JS.at_is counts 1 2 then TwoPair
  else if JS.at_is counts 0 2 then Pair
  else HighCard.

Definition evaluateHand (selectedCards : list PlayingCard) : HandRank :=
  if negb (List.length selectedCards =? 5)%nat then None
  else
    let values := values selectedCards in
    let suitsCount := suitsCount selectedCards in
    let valueCount := valueCount values in
    let isFlush := isFlush suitsCount in
    let isStraight := isStraight values in
    let counts := counts valueCount in
    Some (rankOf isFlush isStraight values counts).

(** ** Sample hands *)

Definition cardOf (r : Rank) (s : Suit) : PlayingCard := mkCard s r.

Definition royal_spades : list PlayingCard :=
  [cardOf R10 spades; cardOf RJ spades; cardOf RQ spades; cardOf RK spades;
   cardOf RA spades].

Definition wheel_diamonds : list PlayingCard :=
  [cardOf RA diamonds; cardOf R2 diamonds; cardOf R3 diamonds;
   cardOf R4 diamonds; cardOf R5 diamonds].

Definition two_pair_hand : list PlayingCard :=
  [cardOf R2 clubs; cardOf R2 diamonds; cardOf R5 hearts; cardOf R5 spades;
   cardOf RK clubs].

Definition pair_hand : list PlayingCard :=
  [cardOf R2 clubs; cardOf R2 diamonds; cardOf R5 hearts; cardOf R9 spades;
   cardOf RK clubs].

Definition full_house_hand : list PlayingCard :=
  [cardOf R9 clubs; cardOf R9 diamonds; cardOf R9 hearts; cardOf RK spades;
   cardOf RK clubs].

Definition straight_flush_hearts : list PlayingCard :=
  [cardOf R5 hearts; cardOf R6 hearts; cardOf R7 hearts; cardOf R8 hearts;
   cardOf R9 hearts].

Definition five_nines : list PlayingCard :=
  [cardOf R9 clubs; cardOf R9 diamonds; cardOf R9 hearts; cardOf R9 spades;
   cardOf R9 clubs].

Definition four_sevens : list PlayingCard :=
  [cardOf R7 clubs; cardOf R7 diamonds; cardOf R7 hearts; cardOf R7 spades;
   cardOf R2 clubs].

Definition straight_mixed : list PlayingCard :=
  [cardOf R5 hearts; cardOf R6 clubs; cardOf R7 hearts; cardOf R8 spades;
   cardOf R9 hearts].

Definition flush_clubs : list PlayingCard :=
  [cardOf R2 clubs; cardOf R5 clubs; cardOf R9 clubs; cardOf RJ clubs;
   cardOf RK clubs].

Definition high_card_hand : list PlayingCard :=
  [cardOf R2 clubs; cardOf R5 diamonds; cardOf R9 hearts; cardOf RJ spades;
   cardOf RK clubs].

(** ** What the specification calls things

    These follow the words of the specification; the theorems below compare
    them with what the code computes. *)

(** The numeric value of a rank: 2 to 10 as written, Jack 11, Queen 12,
    King 13, Ace 14. *)
Definition numeric (r : Rank) : Z :=
  match r with
  | R2 => 2 | R3 => 3 | R4 => 4 | R5 => 5 | R6 => 6 | R7 => 7 | R8 => 8
  | R9 => 9 | R10 => 10 | RJ => 11 | RQ => 12 | RK => 13 | RA => 14
  end.

(** [vs] is the ascending-sorted sequence of the numeric values of [cards]. *)
Definition SortedValues (cards : list PlayingCard) (vs : list Z) : Prop :=
  Sorted Z.le vs /\ Permutation vs (map (fun card => numeric (rank card)) cards).

(** Five consecutive integers. *)
Definition Consecutive (vs : list Z) : Prop :=
  exists k, vs = [k; k + 1; k + 2; k + 3; k + 4].

(** The wheel: the Ace plays low. *)
Definition wheel : list Z := [2; 3; 4; 5; 14].

(** The straight predicate of the specification. *)
Definition StraightHand (cards : list PlayingCard) : Prop :=
  exists vs, SortedValues cards vs /\ (Consecutive vs \/ vs = wheel).

(** The flush predicate of the specification: all cards share one suit. *)
Definition FlushHand (cards : list PlayingCard) : Prop :=
  exists s, Forall (fun card => suit card = s) cards.

(** All cards have the rank [r]. *)
Definition SameRank (r : Rank) (cards : list PlayingCard) : Prop :=
  Forall (fun card => rank card = r) cards.

(** The ten names of [HandRank]. *)
Definition HandNames : list HandName :=
  [RoyalFlush; StraightFlush; FourOfAKind; FullHouse; Flush; Straight;
   ThreeOfAKind; TwoPair; Pair; HighCard].

(** How many of [cards] have the suit [s]. *)
Fixpoint suitTotal (s : Suit) (cards : list PlayingCard) : Z :=
  match cards with
  | [] => 0
  | card :: cards' =>
      (if Suit_eqb (suit card) s then 1 else 0) + suitTotal s cards'
  end.

(** The thirteen numeric values. *)
Definition numerics : list Z := [2; 3; 4; 5; 6; 7; 8; 9; 10; 11; 12; 13; 14].

(** How many of [vs] are the value [k]. *)
Fixpoint valueTotal (k : Z) (vs : list Z) : Z :=
  match vs with
  | [] => 0
  | v :: vs' => (if v =? k then 1 else 0) + valueTotal k vs'
  end.

(** How many of [cards] have the rank [r]. *)
Fixpoint rankTotal (r : Rank) (cards : list PlayingCard) : Z :=
  match cards with
  | [] => 0
  | card :: cards' =>
      (if Rank_eqb (rank card) r then 1 else 0) + rankTotal r cards'
  end.

(** The non-zero rank multiplicities, in the order of [ranks]. *)
Definition multiplicities (cards : list PlayingCard) : list Z :=
  filter (fun n => negb (n =? 0)) (map (fun r => rankTotal r cards) ranks).

(** The sum of a list of numbers. *)
Definition total (l : list Z) : Z := fold_right Z.add 0 l.

(** The entries, among the keys [ks], of the object that holds [g k] under
    every key [k] with [g k <> 0]. *)
Definition tally (ks : list Z) (g : Z -> Z) : JS.Record Z :=
  filter (fun p => negb (snd p =? 0)) (map (fun k => (k, g k)) ks).

(** The ways to write 5 as a sum of positive integers, largest first. *)
Definition partitions5 : list (list Z) :=
  [[5]; [4; 1]; [3; 2]; [3; 1; 1]; [2; 2; 1]; [2; 1; 1; 1]; [1; 1; 1; 1; 1]].

(** ** The component state and its handlers

    The component keeps two pieces of state, [selectedCards] and [error].
    A handler runs from the render of the current state, so the
    [selectedCards] it closes over and the argument of its functional
    updates are the same list; a handler is therefore a function from the
    state before to the state after. *)

Module PokerHandEvaluator.

Record State : Type := mkState { selectedCards : list PlayingCard; error : string }.

(** [useState([])] and [useState("")]. *)
Definition initial : State := mkState [] "".

(** The string literals of [Rank] and [Suit]. *)
Definition Rank_string (r : Rank) : string :=
  match r with
  | R2 => "2" | R3 => "3" | R4 => "4" | R5 => "5" | R6 => "6" | R7 => "7"
  | R8 => "8" | R9 => "9" | R10 => "10" | RJ => "J" | RQ => "Q" | RK => "K"
  | RA => "A"
  end.

Definition Suit_string (s : Suit) : string :=
  match s with
  | hearts => "hearts" | diamonds => "diamonds" | clubs => "clubs"
  | spades => "spades"
  end.


(** Truthiness of a string and of a [HandRank]: the empty string and [null]
    are falsy. *)
Definition truthy (s : string) : bool := negb (String.eqb s "").


(** The template [`${card.rank}-${card.suit}`]. *)
Definition cardKey (card : PlayingCard) : string :=
  (Rank_string (rank card) ++ "-" ++ Suit_string (suit card))%string.

(** Generate all possible cards for selection. *)
Definition allCards : list PlayingCard :=
  flat_map (fun suit => map (fun rank => mkCard suit rank) ranks) suits.

(** Handle card selection/deselection. *)
Definition toggleCard (card : PlayingCard) (st : State) : State :=
  let cardKey := cardKey card in
  let isSelected :=
    JS.some (fun c => String.eqb (PokerHandEvaluator.cardKey c) cardKey)
      (selectedCards st) in
  if isSelected then
    mkState
      (filter (fun c => negb (String.eqb (PokerHandEvaluator.cardKey c) cardKey))
         (selectedCards st))
      ""
  else if (List.length (selectedCards st) <? 5)%nat then
    mkState (selectedCards st ++ [card]) ""
  else mkState (selectedCards st) "You can only select 5 cards".

(** The click handler of the Reset button. *)
Definition resetHand (st : State) : State := mkState [] "".

(** [isSelected] of the selection grid. *)
Definition isSelected (st : State) (card : PlayingCard) : bool :=
  JS.some
    (fun c => Rank_eqb (rank c) (rank card) && Suit_eqb (suit c) (suit card))
    (selectedCards st).

(** The [disabled] attribute of a button of the selection grid. *)
Definition disabled (st : State) (card : PlayingCard) : bool :=
  (5 <=? List.length (selectedCards st))%nat && negb (isSelected st card).


(** The condition under which the error is rendered. *)
Definition showsError (st : State) : bool := truthy (error st).



(** The condition under which the Reset button is rendered. *)
Definition showsReset (st : State) : bool :=
  (0 <? List.length (selectedCards st))%nat.

(** What the user can do, and the state after a sequence of such actions. *)
Inductive Action : Type :=
  | Toggle (card : PlayingCard)
  | Reset.

Definition act (st : State) (a : Action) : State :=
  match a with
  | Toggle card => toggleCard card st
  | Reset => resetHand st
  end.

Definition run (actions : list Action) : State := fold_left act actions initial.

(** Whether the control that triggers [a] can be clicked: a card through
    its grid button unless that is disabled, or through its face among the
    selected cards; Reset while its button is rendered. *)
Definition enabled (st : State) (a : Action) : bool :=
  match a with
  | Toggle card => negb (disabled st card)
  | Reset => showsReset st
  end.

(** Whether each action of a sequence is enabled when its turn comes. *)
Fixpoint allowed (st : State) (actions : list Action) : bool :=
  match actions with
  | [] => true
  | a :: actions' => enabled st a && allowed (act st a) actions'
  end.



End PokerHandEvaluator.

(** ** Facts about the sort *)

Section SortFacts.
Context {A : Type} (cmp : A -> A -> Z).

Lemma insert_Permutation (x : A) (l : list A) :
  Permutation (JS.insert cmp x l) (x :: l).
Proof.
  induction l as [|y l IH]; simpl.
  - apply Permutation_refl.
  - destruct (cmp x y <=? 0).
    + apply Permutation_refl.
    + eapply perm_trans; [apply perm_skip, IH | apply perm_swap].
Qed.

Lemma sort_Permutation (l : list A) : Permutation (JS.sort cmp l) l.
Proof.
  induction l as [|x l IH]; simpl.
  - apply perm_nil.
  - eapply perm_trans; [apply insert_Permutation | apply perm_skip, IH].
Qed.

Lemma sort_length (l : list A) : List.length (JS.sort cmp l) = List.length l.
Proof. apply Permutation_length, sort_Permutation. Qed.

End SortFacts.

Lemma insert_ascending_comm (x y : Z) (l : list Z) :
  JS.insert ascending x (JS.insert ascending y l)
  = JS.insert ascending y (JS.insert ascending x l).
Proof.
  unfold ascending.
  induction l as [|z l IH]; simpl.
  - destruct (Z.leb_spec (x - y) 0), (Z.leb_spec (y - x) 0);
      try reflexivity; try lia.
    replace y with x by lia. reflexivity.
  - destruct (Z.leb_spec (y - z) 0), (Z.leb_spec (x - z) 0); simpl;
      repeat match goal with
        | |- context [?a <=? 0] => destruct (Z.leb_spec a 0); simpl
        end;
      try lia; try reflexivity.
    + replace y with x by lia. reflexivity.
    + rewrite IH. reflexivity.
Qed.

Lemma sort_ascending_Permutation (l l' : list Z) :
  Permutation l l' -> JS.sort ascending l = JS.sort ascending l'.
Proof.
  induction 1 as [|x l l' _ IH|x y l|l l' l'' _ IH1 _ IH2]; simpl.
  - reflexivity.
  - now rewrite IH.
  - apply insert_ascending_comm.
  - now rewrite IH1.
Qed.

Lemma insert_ascending_Sorted (x : Z) (l : list Z) :
  Sorted Z.le l -> Sorted Z.le (JS.insert ascending x l).
Proof.
  unfold ascending.
  induction 1 as [|y l Hs IH Hhd]; simpl.
  - repeat constructor.
  - destruct (Z.leb_spec (x - y) 0).
    + repeat constructor; trivial. lia.
    + constructor; trivial.
      destruct Hhd as [|z l Hyz]; simpl.
      * repeat constructor. lia.
      * destruct (x - z <=? 0); constructor; lia.
Qed.

Lemma sort_ascending_Sorted (l : list Z) : Sorted Z.le (JS.sort ascending l).
Proof.
  induction l as [|x l IH]; simpl.
  - constructor.
  - now apply insert_ascending_Sorted.
Qed.

Lemma sort_ascending_id (l : list Z) :
  Sorted Z.le l -> JS.sort ascending l = l.
Proof.
  induction 1 as [|x l _ IH Hhd]; simpl; trivial.
  rewrite IH. destruct Hhd as [|y l Hxy]; simpl; trivial.
  unfold ascending. destruct (Z.leb_spec (x - y) 0); trivial. lia.
Qed.

(** A sorted rearrangement of [l] is what the sort returns. *)
Lemma sort_ascending_unique (l vs : list Z) :
  Sorted Z.le vs -> Permutation vs l -> JS.sort ascending l = vs.
Proof.
  intros Hs Hp.
  rewrite <- (sort_ascending_Permutation _ _ Hp).
  now apply sort_ascending_id.
Qed.

(** ** Facts about the sorted values *)

Lemma rank_value (r : Rank) : JS.indexOf Rank_eqb ranks r + 2 = numeric r.
Proof. destruct r; reflexivity. Qed.

Lemma numeric_range (r : Rank) : 2 <= numeric r <= 14.
Proof. destruct r; simpl; lia. Qed.

Lemma values_numeric (cards : list PlayingCard) :
  values cards = JS.sort ascending (map (fun card => numeric (rank card)) cards).
Proof.
  unfold values. f_equal. apply map_ext. intros card. apply rank_value.
Qed.

Lemma values_length (cards : list PlayingCard) :
  List.length (values cards) = List.length cards.
Proof. unfold values. now rewrite sort_length, length_map. Qed.

Lemma values_SortedValues (cards : list PlayingCard) :
  SortedValues cards (values cards).
Proof.
  rewrite values_numeric. split.
  - apply sort_ascending_Sorted.
  - apply sort_Permutation.
Qed.

Lemma SortedValues_unique (cards : list PlayingCard) (vs : list Z) :
  SortedValues cards vs -> vs = values cards.
Proof.
  intros [Hs Hp]. rewrite values_numeric. symmetry.
  now apply sort_ascending_unique.
Qed.

Lemma values_range (cards : list PlayingCard) :
  Forall (fun v => 2 <= v <= 14) (values cards).
Proof.
  destruct (values_SortedValues cards) as [_ Hp].
  eapply Permutation_Forall; [apply Permutation_sym, Hp|].
  apply Forall_map, Forall_forall. intros card _. apply numeric_range.
Qed.

Lemma values_Permutation (cards cards' : list PlayingCard) :
  Permutation cards cards' -> values cards = values cards'.
Proof.
  intros Hp. rewrite !values_numeric.
  apply sort_ascending_Permutation, Permutation_map, Hp.
Qed.

(** A list of five elements, spelled out. *)
Lemma length5_inv {A : Type} (l : list A) :
  List.length l = 5%nat -> exists a b c d e, l = [a; b; c; d; e].
Proof.
  destruct l as [|a [|b [|c [|d [|e [|f l]]]]]]; try discriminate.
  intros _. now exists a, b, c, d, e.
Qed.

(** ** Facts about the frequency objects *)

Section RecordFacts.
Context {K : Type} (eqb : K -> K -> bool).
Hypothesis eqb_eq : forall a b, eqb a b = true <-> a = b.

Lemma key_eqb_refl (k : K) : eqb k k = true.
Proof. now apply eqb_eq. Qed.

Lemma key_eqb_neq (a b : K) : a <> b -> eqb a b = false.
Proof.
  intros Hne. destruct (eqb a b) eqn:E; trivial.
  apply eqb_eq in E. contradiction.
Qed.

Lemma get_set_same (o : JS.Record K) (k : K) (v : Z) :
  JS.get eqb (JS.set eqb o k v) k = Some v.
Proof.
  induction o as [|[k' v'] o IH]; simpl.
  - now rewrite key_eqb_refl.
  - destruct (eqb k' k) eqn:E; simpl.
    + now rewrite key_eqb_refl.
    + now rewrite E.
Qed.

Lemma get_set_other (o : JS.Record K) (k k' : K) (v : Z) :
  k <> k' -> JS.get eqb (JS.set eqb o k v) k' = JS.get eqb o k'.
Proof.
  intros Hne. induction o as [|[k0 v0] o IH]; simpl.
  - now rewrite key_eqb_neq.
  - destruct (eqb k0 k) eqn:E; simpl.
    + apply eqb_eq in E. subst k0. now rewrite key_eqb_neq.
    + now rewrite IH.
Qed.

Lemma keys_set (o : JS.Record K) (k k' : K) (v : Z) :
  In k' (map fst (JS.set eqb o k v)) <-> k' = k \/ In k' (map fst o).
Proof.
  induction o as [|[k0 v0] o IH]; simpl.
  - intuition.
  - destruct (eqb k0 k) eqn:E; simpl.
    + apply eqb_eq in E. subst k0. intuition.
    + rewrite IH. intuition.
Qed.

Lemma NoDup_set (o : JS.Record K) (k : K) (v : Z) :
  NoDup (map fst o) -> NoDup (map fst (JS.set eqb o k v)).
Proof.
  induction o as [|[k0 v0] o IH]; simpl; intros Hnd.
  - repeat constructor. intros [].
  - inversion Hnd as [|? ? Hnotin Hnd']; subst.
    destruct (eqb k0 k) eqn:E; simpl.
    + apply eqb_eq in E. subst k0. now constructor.
    + constructor; [|now apply IH].
      rewrite keys_set. intros [->|Hin]; [|contradiction].
      rewrite key_eqb_refl in E. discriminate.
Qed.

Lemma get_In (o : JS.Record K) (k : K) (v : Z) :
  JS.get eqb o k = Some v -> In (k, v) o.
Proof.
  induction o as [|[k0 v0] o IH]; simpl; [discriminate|].
  destruct (eqb k0 k) eqn:E.
  - apply eqb_eq in E. subst k0. intros [= ->]. now left.
  - intros H. right. now apply IH.
Qed.

Lemma In_get (o : JS.Record K) (k : K) (v : Z) :
  NoDup (map fst o) -> In (k, v) o -> JS.get eqb o k = Some v.
Proof.
  induction o as [|[k0 v0] o IH]; simpl; [intros _ []|].
  intros Hnd [[= -> ->]|Hin].
  - now rewrite key_eqb_refl.
  - inversion Hnd as [|? ? Hnotin Hnd']; subst.
    destruct (eqb k0 k) eqn:E.
    + apply eqb_eq in E. subst k0. exfalso. apply Hnotin.
      change k with (fst (k, v)). now apply in_map.
    + now apply IH.
Qed.

(** Some enumerated value is [n] exactly when some property holds [n]. *)
Lemma some_Object_values (o : JS.Record K) (n : Z) :
  NoDup (map fst o) ->
  JS.some (fun count => count =? n) (JS.Object_values o) = true
  <-> exists k, JS.get eqb o k = Some n.
Proof.
  intros Hnd. unfold JS.some, JS.Object_values. rewrite existsb_exists. split.
  - intros [v [Hin Hv]]. apply Z.eqb_eq in Hv. subst v.
    apply in_map_iff in Hin. destruct Hin as [[k v] [Hv Hin]].
    simpl in Hv. subst v. exists k. now apply In_get.
  - intros [k Hk]. exists n. split; [|apply Z.eqb_refl].
    apply get_In in Hk. change n with (snd (k, n)). now apply in_map.
Qed.

End RecordFacts.

Lemma or0_Some (v : Z) : JS.or0 (Some v) = v.
Proof. simpl. destruct (Z.eqb_spec v 0); congruence. Qed.

Lemma Suit_eqb_eq (a b : Suit) : Suit_eqb a b = true <-> a = b.
Proof. destruct a, b; simpl; split; congruence. Qed.

(** ** Facts about the flush test *)

Lemma suitStep_or0 (acc : JS.Record Suit) (card : PlayingCard) (s : Suit) :
  JS.or0 (JS.get Suit_eqb (suitStep acc card) s)
  = JS.or0 (JS.get Suit_eqb acc s) + (if Suit_eqb (suit card) s then 1 else 0).
Proof.
  unfold suitStep. destruct (Suit_eqb (suit card) s) eqn:E.
  - apply Suit_eqb_eq in E. subst s.
    rewrite (get_set_same Suit_eqb Suit_eqb_eq). apply or0_Some.
  - rewrite (get_set_other Suit_eqb Suit_eqb_eq); [lia|].
    intros Heq. apply Suit_eqb_eq in Heq. congruence.
Qed.

Lemma suitFold_or0 (cards : list PlayingCard) (acc : JS.Record Suit) (s : Suit) :
  JS.or0 (JS.get Suit_eqb (fold_left suitStep cards acc) s)
  = JS.or0 (JS.get Suit_eqb acc s) + suitTotal s cards.
Proof.
  revert acc. induction cards as [|card cards IH]; intros acc; simpl.
  - lia.
  - rewrite IH, suitStep_or0. lia.
Qed.

Lemma suitFold_NoDup (cards : list PlayingCard) (acc : JS.Record Suit) :
  NoDup (map fst acc) -> NoDup (map fst (fold_left suitStep cards acc)).
Proof.
  revert acc. induction cards as [|card cards IH]; intros acc Hnd; simpl.
  - exact Hnd.
  - apply IH. unfold suitStep. now apply (NoDup_set Suit_eqb Suit_eqb_eq).
Qed.

Lemma suitsCount_get (cards : list PlayingCard) (s : Suit) (n : Z) :
  n <> 0 ->
  JS.get Suit_eqb (suitsCount cards) s = Some n <-> suitTotal s cards = n.
Proof.
  intros Hn.
  pose proof (suitFold_or0 cards [] s) as H. simpl in H.
  change (fold_left suitStep cards []) with (suitsCount cards) in H.
  destruct (JS.get Suit_eqb (suitsCount cards) s) as [v|].
  - rewrite or0_Some in H. split; [intros [= ->]; lia | intros <-; f_equal; lia].
  - simpl in H. split; [discriminate | intros <-; congruence].
Qed.

Lemma isFlush_suitTotal (cards : list PlayingCard) :
  isFlush (suitsCount cards) = true <-> exists s, suitTotal s cards = 5.
Proof.
  assert (Hnd : NoDup (map fst (suitsCount cards)))
    by (apply (suitFold_NoDup cards []); constructor).
  unfold isFlush.
  rewrite (some_Object_values Suit_eqb Suit_eqb_eq _ _ Hnd).
  assert (H5 : 5 <> 0) by discriminate.
  split; intros [s Hs]; exists s.
  - exact (proj1 (suitsCount_get cards s 5 H5) Hs).
  - exact (proj2 (suitsCount_get cards s 5 H5) Hs).
Qed.

Lemma suitTotal_bound (s : Suit) (cards : list PlayingCard) :
  0 <= suitTotal s cards <= Z.of_nat (List.length cards).
Proof.
  induction cards as [|card cards IH]; simpl List.length; simpl suitTotal.
  - lia.
  - destruct (Suit_eqb (suit card) s); lia.
Qed.

Lemma suitTotal_all (s : Suit) (cards : list PlayingCard) :
  suitTotal s cards = Z.of_nat (List.length cards)
  <-> Forall (fun card => suit card = s) cards.
Proof.
  induction cards as [|card cards IH]; simpl List.length; simpl suitTotal.
  - split; [constructor | reflexivity].
  - pose proof (suitTotal_bound s cards) as Hb.
    destruct (Suit_eqb (suit card) s) eqn:E; split.
    + intros H. constructor; [now apply Suit_eqb_eq | apply IH; lia].
    + intros H. inversion H as [|? ? _ Hall]. apply IH in Hall. lia.
    + intros H. lia.
    + intros H. inversion H as [|? ? Hs _].
      apply Suit_eqb_eq in Hs. congruence.
Qed.

Lemma suitTotal_Permutation (s : Suit) (cards cards' : list PlayingCard) :
  Permutation cards cards' -> suitTotal s cards = suitTotal s cards'.
Proof.
  induction 1; simpl; lia.
Qed.

(** On five cards the flush test of the code is the flush predicate of the
    specification. *)
Lemma isFlush_FlushHand (cards : list PlayingCard) :
  List.length cards = 5%nat ->
  isFlush (suitsCount cards) = true <-> FlushHand cards.
Proof.
  intros Hlen. rewrite isFlush_suitTotal. unfold FlushHand.
  split; intros [s Hs]; exists s.
  - apply suitTotal_all. rewrite Hlen. exact Hs.
  - apply suitTotal_all in Hs. rewrite Hlen in Hs. exact Hs.
Qed.

Lemma isFlush_Permutation (cards cards' : list PlayingCard) :
  Permutation cards cards' ->
  isFlush (suitsCount cards) = isFlush (suitsCount cards').
Proof.
  intros Hp. apply eq_true_iff_eq. rewrite !isFlush_suitTotal.
  split; intros [s Hs]; exists s.
  - now rewrite <- (suitTotal_Permutation s _ _ Hp).
  - now rewrite (suitTotal_Permutation s _ _ Hp).
Qed.

(** ** Facts about the straight test *)

Lemma range_numerics (v : Z) : 2 <= v <= 14 -> In v numerics.
Proof. intros H. unfold numerics. simpl. lia. Qed.

(** Splits a membership in an explicit list into one goal per element. *)
Ltac each_of H :=
  simpl in H;
  repeat (destruct H as [H|H]; [symmetry in H; subst|]);
  try contradiction.

Lemma toString_inj (v w : Z) :
  In v numerics -> In w numerics -> JS.toString v = JS.toString w -> v = w.
Proof.
  intros Hv Hw. each_of Hv; each_of Hw; intros H;
    try reflexivity; vm_compute in H; discriminate H.
Qed.

(** Two joined sequences that agree, agree on their first element and on
    what follows the first comma. *)
Lemma toString_comma_inj (v w : Z) (r t : string) :
  In v numerics -> In w numerics ->
  (JS.toString v ++ "," ++ r)%string = (JS.toString w ++ "," ++ t)%string ->
  v = w /\ r = t.
Proof.
  intros Hv Hw. each_of Hv; each_of Hw; cbn; intros H;
    try discriminate H; injection H as H; try discriminate H;
    split; (reflexivity || assumption).
Qed.

Lemma join_cons2 (x y : Z) (l : list Z) :
  JS.join (x :: y :: l) = (JS.toString x ++ "," ++ JS.join (y :: l))%string.
Proof. reflexivity. Qed.

Lemma join_inj (l l' : list Z) :
  Forall (fun v => In v numerics) l -> Forall (fun v => In v numerics) l' ->
  List.length l = List.length l' -> JS.join l = JS.join l' -> l = l'.
Proof.
  revert l'. induction l as [|x l IH]; intros [|y l'] Hl Hl' Hlen H;
    try discriminate Hlen; trivial.
  inversion Hl as [|? ? Hx Hl0]; inversion Hl' as [|? ? Hy Hl0']; subst.
  destruct l as [|x2 l]; destruct l' as [|y2 l']; try discriminate Hlen.
  - f_equal. now apply toString_inj.
  - rewrite !join_cons2 in H.
    apply toString_comma_inj in H; trivial. destruct H as [-> H].
    f_equal. apply IH; trivial. simpl in Hlen |- *. lia.
Qed.

Lemma isStraight_five (a b c d e : Z) :
  isStraight [a; b; c; d; e]
  = (b =? a + 1) && ((c =? b + 1) && ((d =? c + 1) && ((e =? d + 1) && true)))
    || String.eqb (JS.join [a; b; c; d; e]) "2,3,4,5,14".
Proof. reflexivity. Qed.

(** On five values between 2 and 14 the straight test holds exactly for five
    consecutive values and for the wheel. *)
Lemma isStraight_iff (vs : list Z) :
  List.length vs = 5%nat -> Forall (fun v => 2 <= v <= 14) vs ->
  isStraight vs = true <-> Consecutive vs \/ vs = wheel.
Proof.
  intros Hlen Hr.
  destruct (length5_inv vs Hlen) as (a & b & c & d & e & ->).
  rewrite isStraight_five, orb_true_iff, !andb_true_iff, !Z.eqb_eq, String.eqb_eq.
  split.
  - intros [(Hb & Hc & Hd & He & _)|Hj].
    + left. exists a. repeat f_equal; lia.
    + right. apply join_inj; trivial.
      * eapply Forall_impl; [|exact Hr]. intros v. apply range_numerics.
      * repeat constructor; unfold numerics; simpl; tauto.
  - intros [[k Hk]|Hw].
    + left. injection Hk as -> -> -> -> ->. repeat split; lia.
    + right. rewrite Hw. reflexivity.
Qed.

(** ** Facts about the descending frequencies *)

Lemma straight_counts (vs : list Z) :
  List.length vs = 5%nat -> Forall (fun v => 2 <= v <= 14) vs ->
  isStraight vs = true -> counts (valueCount vs) = [1; 1; 1; 1; 1].
Proof.
  intros Hlen Hr Hs. apply isStraight_iff in Hs; trivial.
  destruct Hs as [[k ->]| ->]; [|reflexivity].
  assert (Hk : In k [2; 3; 4; 5; 6; 7; 8; 9; 10]).
  { inversion Hr as [|? ? Hk Hr1]. inversion Hr1 as [|? ? _ Hr2].
    inversion Hr2 as [|? ? _ Hr3]. inversion Hr3 as [|? ? _ Hr4].
    inversion Hr4 as [|? ? Hk4 _]. simpl. lia. }
  each_of Hk; reflexivity.
Qed.

Lemma repeat_Sorted (x : Z) (n : nat) : Sorted Z.le (repeat x n).
Proof.
  induction n as [|n IH]; simpl; constructor; trivial.
  destruct n; simpl; constructor. apply Z.le_refl.
Qed.

Lemma same_rank_values (r : Rank) (cards : list PlayingCard) :
  SameRank r cards -> values cards = repeat (numeric r) (List.length cards).
Proof.
  intros H. rewrite values_numeric.
  assert (Hm : map (fun card => numeric (rank card)) cards
               = repeat (numeric r) (List.length cards)).
  { induction H as [|card cards Hc _ IH]; simpl; [reflexivity|].
    now rewrite Hc, IH. }
  rewrite Hm. apply sort_ascending_id, repeat_Sorted.
Qed.

Lemma valueCount_step_nonempty (acc : JS.Record Z) (k v : Z) :
  JS.set_index acc k v <> [].
Proof.
  destruct acc as [|[k' v'] acc]; simpl; [discriminate|].
  destruct (k' =? k); [discriminate|]. destruct (k <? k'); discriminate.
Qed.

Lemma valueCount_nonempty (vs : list Z) : vs <> [] -> valueCount vs <> [].
Proof.
  unfold valueCount. intros Hne.
  assert (Hfold : forall l acc, acc <> [] ->
            fold_left valueStep l acc <> []).
  { induction l as [|x l IH]; intros acc Hacc; simpl; trivial.
    apply IH, valueCount_step_nonempty. }
  destruct vs as [|x vs]; [contradiction|]. cbn [fold_left].
  apply Hfold, valueCount_step_nonempty.
Qed.

(** ** Facts about the routine as a whole *)

Lemma evaluateHand_five (cards : list PlayingCard) :
  List.length cards = 5%nat ->
  evaluateHand cards
  = Some (rankOf (isFlush (suitsCount cards)) (isStraight (values cards))
            (values cards) (counts (valueCount (values cards)))).
Proof. intros Hlen. unfold evaluateHand. now rewrite Hlen. Qed.

Lemma isStraight_StraightHand (cards : list PlayingCard) :
  List.length cards = 5%nat ->
  isStraight (values cards) = true <-> StraightHand cards.
Proof.
  intros Hlen.
  rewrite isStraight_iff;
    [|now rewrite values_length | apply values_range].
  unfold StraightHand. split.
  - intros H. exists (values cards). split; trivial. apply values_SortedValues.
  - intros [vs [Hvs H]]. apply SortedValues_unique in Hvs. now subst vs.
Qed.

Lemma flush_straight_rank (cards : list PlayingCard) :
  List.length cards = 5%nat ->
  isFlush (suitsCount cards) = true -> isStraight (values cards) = true ->
  evaluateHand cards
  = Some (if JS.at_is (values cards) 4 14 then RoyalFlush else StraightFlush).
Proof.
  intros Hlen Hf Hs. rewrite evaluateHand_five by trivial.
  unfold rankOf. rewrite Hf, Hs. simpl.
  now destruct (JS.at_is (values cards) 4 14).
Qed.

(** Every flush whose sorted values are the wheel is reported as a Royal
    Flush: the first guard only looks at the last sorted value. *)
Lemma wheel_flush_rank (cards : list PlayingCard) :
  List.length cards = 5%nat -> FlushHand cards -> values cards = wheel ->
  evaluateHand cards = Some RoyalFlush.
Proof.
  intros Hlen Hf Hw. apply isFlush_FlushHand in Hf; trivial.
  rewrite flush_straight_rank; trivial; now rewrite Hw.
Qed.

Lemma same_rank_rank (r : Rank) (cards : list PlayingCard) :
  List.length cards = 5%nat -> SameRank r cards ->
  counts (valueCount (values cards)) = [5]
  /\ evaluateHand cards
     = Some (if isFlush (suitsCount cards) then Flush else HighCard).
Proof.
  intros Hlen Hr. rewrite evaluateHand_five by trivial.
  rewrite (same_rank_values r cards Hr), Hlen.
  destruct r; (split; [reflexivity|]);
    now destruct (isFlush (suitsCount cards)).
Qed.

(** ** Properties of the classification *)

(** C1 (defect in the code).  The specification says the ace-low wheel in one suit,
    A♦ 2♦ 3♦ 4♦ 5♦, is a Straight Flush and not a Royal Flush.  The code
    disagrees: its sorted values are 2,3,4,5,14, the last one is 14, and the
    first guard answers Royal Flush. *)
Theorem wheel_diamonds_reported_royal :
  values wheel_diamonds = wheel
  /\ evaluateHand wheel_diamonds = Some RoyalFlush
  /\ evaluateHand wheel_diamonds <> Some StraightFlush.
Proof. repeat split. discriminate. Qed.

(** C2.  [evaluateHand] returns [null] exactly when the number of selected
    cards is not five. *)
Theorem evaluateHand_null_iff (cards : list PlayingCard) :
  evaluateHand cards = None <-> List.length cards <> 5%nat.
Proof.
  unfold evaluateHand.
  destruct (Nat.eqb_spec (List.length cards) 5) as [Heq|Hne]; simpl.
  - split; [discriminate | intros H; contradiction].
  - split; trivial.
Qed.

(** C3.  Five cards that are both a flush (all of one suit) and a straight
    (five consecutive values, or the wheel) are reported as Straight Flush or
    Royal Flush, never as Flush or Straight. *)
Theorem flush_and_straight_priority (cards : list PlayingCard) :
  List.length cards = 5%nat -> FlushHand cards -> StraightHand cards ->
  (evaluateHand cards = Some StraightFlush
   \/ evaluateHand cards = Some RoyalFlush)
  /\ evaluateHand cards <> Some Flush
  /\ evaluateHand cards <> Some Straight.
Proof.
  intros Hlen Hf Hs.
  apply isFlush_FlushHand in Hf; trivial.
  apply isStraight_StraightHand in Hs; trivial.
  rewrite (flush_straight_rank cards Hlen Hf Hs).
  destruct (JS.at_is (values cards) 4 14); repeat split;
    try discriminate; auto.
Qed.

Lemma flush_and_straight_priority_witness :
  (evaluateHand straight_flush_hearts = Some StraightFlush
   \/ evaluateHand straight_flush_hearts = Some RoyalFlush)
  /\ evaluateHand straight_flush_hearts <> Some Flush
  /\ evaluateHand straight_flush_hearts <> Some Straight.
Proof.
  apply (flush_and_straight_priority straight_flush_hearts).
  - reflexivity.
  - exists hearts. repeat constructor.
  - exists [5; 6; 7; 8; 9]. split.
    + split; [repeat constructor; discriminate | apply Permutation_refl].
    + left. exists 5. reflexivity.
Defined.

(** C4.  10♠ J♠ Q♠ K♠ A♠ is a Royal Flush. *)
Theorem royal_spades_is_royal : evaluateHand royal_spades = Some RoyalFlush.
Proof. reflexivity. Qed.

(** C5.  On five cards, the straight test of the code holds exactly when the
    ascending-sorted numeric values (Ace = 14) are five consecutive integers
    or are the wheel 2,3,4,5,14. *)
Theorem straight_test_iff (cards : list PlayingCard) :
  List.length cards = 5%nat ->
  isStraight (values cards) = true <-> StraightHand cards.
Proof. apply isStraight_StraightHand. Qed.

Lemma straight_test_iff_witness :
  isStraight (values royal_spades) = true <-> StraightHand royal_spades.
Proof. apply (straight_test_iff royal_spades). reflexivity. Defined.

(** C6.  Selecting the same cards in another order gives the same result. *)
Theorem evaluateHand_Permutation (cards cards' : list PlayingCard) :
  Permutation cards cards' -> evaluateHand cards = evaluateHand cards'.
Proof.
  intros Hp. unfold evaluateHand.
  rewrite (Permutation_length Hp), (values_Permutation _ _ Hp),
    (isFlush_Permutation _ _ Hp).
  reflexivity.
Qed.

Lemma evaluateHand_Permutation_witness :
  evaluateHand wheel_diamonds
  = evaluateHand
      [cardOf R2 diamonds; cardOf RA diamonds; cardOf R3 diamonds;
       cardOf R4 diamonds; cardOf R5 diamonds].
Proof. apply evaluateHand_Permutation. apply perm_swap. Defined.

(** C7.  2♣ 2♦ 5♥ 5♠ K♣ is Two Pair and 2♣ 2♦ 5♥ 9♠ K♣ is Pair; the
    descending frequencies are 2,2,1 and 2,1,1,1. *)
Theorem two_pair_before_pair :
  evaluateHand two_pair_hand = Some TwoPair
  /\ evaluateHand pair_hand = Some Pair
  /\ counts (valueCount (values two_pair_hand)) = [2; 2; 1]
  /\ counts (valueCount (values pair_hand)) = [2; 1; 1; 1].
Proof. repeat split. Qed.

(** C8.  Five cards whose descending frequencies begin 3,2 are a Full
    House. *)
Theorem full_house_of_counts (cards : list PlayingCard) (rest : list Z) :
  List.length cards = 5%nat ->
  counts (valueCount (values cards)) = 3 :: 2 :: rest ->
  evaluateHand cards = Some FullHouse.
Proof.
  intros Hlen Hc. rewrite evaluateHand_five by trivial.
  destruct (isStraight (values cards)) eqn:Hs.
  - apply straight_counts in Hs;
      [congruence | now rewrite values_length | apply values_range].
  - rewrite Hc. unfold rankOf. now rewrite andb_false_r.
Qed.

Lemma full_house_of_counts_witness :
  evaluateHand full_house_hand = Some FullHouse.
Proof.
  apply (full_house_of_counts full_house_hand []); reflexivity.
Defined.

(** C9.  On five cards [evaluateHand] returns one of the ten names, and only
    one, never [null]; [values[4]] and [counts[0]] are always there, and a
    missing [counts[1]] reads as no number rather than failing. *)
Theorem evaluateHand_total (cards : list PlayingCard) :
  List.length cards = 5%nat ->
  (exists r, evaluateHand cards = Some r /\ In r HandNames
             /\ forall r', evaluateHand cards = Some r' -> r' = r)
  /\ evaluateHand cards <> None
  /\ (exists v, nth_error (values cards) 4 = Some v)
  /\ (exists n, nth_error (counts (valueCount (values cards))) 0 = Some n)
  /\ (nth_error (counts (valueCount (values cards))) 1 = None ->
      JS.at_is (counts (valueCount (values cards))) 1 2 = false).
Proof.
  intros Hlen. rewrite evaluateHand_five by trivial. repeat split.
  - eexists. split; [reflexivity|]. split.
    + match goal with |- In ?r _ => destruct r end; simpl; tauto.
    + intros r' [= <-]. reflexivity.
  - discriminate.
  - destruct (nth_error (values cards) 4) as [v|] eqn:E; [now exists v|].
    apply nth_error_None in E. rewrite values_length, Hlen in E. lia.
  - destruct (counts (valueCount (values cards))) as [|n l] eqn:E;
      [|now exists n].
    exfalso. apply (f_equal (@List.length Z)) in E.
    unfold counts, JS.Object_values in E.
    rewrite sort_length, length_map in E. simpl in E.
    apply length_zero_iff_nil in E. revert E. apply valueCount_nonempty.
    pose proof (values_length cards) as Hv. rewrite Hlen in Hv.
    intros Hnil. rewrite Hnil in Hv. discriminate.
  - intros Hnone. unfold JS.at_is. now rewrite Hnone.
Qed.

Lemma evaluateHand_total_witness :
  (exists r, evaluateHand five_nines = Some r /\ In r HandNames
             /\ forall r', evaluateHand five_nines = Some r' -> r' = r)
  /\ evaluateHand five_nines <> None
  /\ (exists v, nth_error (values five_nines) 4 = Some v)
  /\ (exists n, nth_error (counts (valueCount (values five_nines))) 0 = Some n)
  /\ (nth_error (counts (valueCount (values five_nines))) 1 = None ->
      JS.at_is (counts (valueCount (values five_nines))) 1 2 = false).
Proof. apply (evaluateHand_total five_nines). reflexivity. Defined.

(** C10.  Five cards of one rank are never Four of a Kind: the only
    frequency is 5, so the result is Flush when they also share a suit and
    High Card otherwise. *)
Theorem five_of_one_rank (r : Rank) (cards : list PlayingCard) :
  List.length cards = 5%nat -> SameRank r cards ->
  counts (valueCount (values cards)) = [5]
  /\ evaluateHand cards <> Some FourOfAKind
  /\ (FlushHand cards -> evaluateHand cards = Some Flush)
  /\ (~ FlushHand cards -> evaluateHand cards = Some HighCard).
Proof.
  intros Hlen Hr.
  destruct (same_rank_rank r cards Hlen Hr) as [Hc He].
  pose proof (isFlush_FlushHand cards Hlen) as Hf.
  rewrite He. destruct (isFlush (suitsCount cards)); repeat split;
    trivial; try discriminate.
  - intros Hn. exfalso. apply Hn, Hf. reflexivity.
  - intros Hy. apply Hf in Hy. discriminate.
Qed.

Lemma five_of_one_rank_witness :
  counts (valueCount (values five_nines)) = [5]
  /\ evaluateHand five_nines <> Some FourOfAKind
  /\ (FlushHand five_nines -> evaluateHand five_nines = Some Flush)
  /\ (~ FlushHand five_nines -> evaluateHand five_nines = Some HighCard).
Proof.
  apply (five_of_one_rank R9 five_nines).
  - reflexivity.
  - repeat constructor.
Defined.

(** ** Facts about [valueCount] *)

Lemma tally_cons (k : Z) (ks : list Z) (g : Z -> Z) :
  tally (k :: ks) g
  = if g k =? 0 then tally ks g else (k, g k) :: tally ks g.
Proof. unfold tally. simpl. now destruct (g k =? 0). Qed.

Lemma tally_ext (ks : list Z) (g g' : Z -> Z) :
  (forall k, In k ks -> g k = g' k) -> tally ks g = tally ks g'.
Proof.
  induction ks as [|k ks IH]; intros H; [reflexivity|].
  rewrite !tally_cons, <- (H k) by now left.
  rewrite IH; [reflexivity|]. intros j Hj. apply H. now right.
Qed.

Lemma tally_zero (ks : list Z) : tally ks (fun _ => 0) = [].
Proof.
  induction ks as [|k ks IH]; [reflexivity|]. now rewrite tally_cons.
Qed.

Lemma tally_keys_above (lb : Z) (ks : list Z) (g : Z -> Z) :
  Forall (fun k => lb < k) ks -> Forall (fun p => lb < fst p) (tally ks g).
Proof.
  induction 1 as [|k ks Hk _ IH]; [constructor|].
  rewrite tally_cons. destruct (g k =? 0); trivial. now constructor.
Qed.

Lemma tally_values (ks : list Z) (g : Z -> Z) :
  JS.Object_values (tally ks g) = filter (fun n => negb (n =? 0)) (map g ks).
Proof.
  unfold JS.Object_values.
  induction ks as [|k ks IH]; [reflexivity|].
  rewrite tally_cons. simpl. destruct (g k =? 0); simpl; now rewrite IH.
Qed.

(** A key below every key of the object is enumerated first. *)
Lemma set_index_below (o : JS.Record Z) (k v : Z) :
  Forall (fun p => k < fst p) o -> JS.set_index o k v = (k, v) :: o.
Proof.
  destruct o as [|[k' v'] o]; [reflexivity|]. intros H.
  inversion H as [|? ? Hk _]. simpl in Hk |- *.
  destruct (Z.eqb_spec k' k); [lia|].
  destruct (Z.ltb_spec k k'); [reflexivity | lia].
Qed.

Lemma get_above (o : JS.Record Z) (k : Z) :
  Forall (fun p => k < fst p) o -> JS.get Z.eqb o k = None.
Proof.
  induction 1 as [|[k' v'] o Hk _ IH]; [reflexivity|]. simpl in Hk |- *.
  destruct (Z.eqb_spec k' k); [lia | exact IH].
Qed.

Lemma set_index_tally (ks : list Z) (g : Z -> Z) (v n : Z) :
  StronglySorted Z.lt ks -> In v ks -> n <> 0 ->
  JS.set_index (tally ks g) v n = tally ks (fun k => if k =? v then n else g k).
Proof.
  intros Hs Hin Hn. induction Hs as [|k ks Hs IH Hk]; [destruct Hin|].
  rewrite !tally_cons. destruct (Z.eqb_spec k v) as [->|Hne].
  - assert (Hrest : tally ks (fun k => if k =? v then n else g k) = tally ks g).
    { apply tally_ext. intros j Hj.
      rewrite Forall_forall in Hk. specialize (Hk j Hj).
      destruct (Z.eqb_spec j v); [lia | reflexivity]. }
    rewrite Hrest. destruct (Z.eqb_spec n 0); [contradiction|].
    destruct (g v =? 0).
    + apply set_index_below. now apply tally_keys_above.
    + simpl. now rewrite Z.eqb_refl.
  - destruct Hin as [Heq|Hin]; [contradiction|].
    assert (Hlt : k < v) by (rewrite Forall_forall in Hk; now apply Hk).
    destruct (g k =? 0); [now apply IH|].
    simpl. destruct (Z.eqb_spec k v); [contradiction|].
    destruct (Z.ltb_spec v k); [lia|]. now rewrite IH.
Qed.

Lemma get_tally (ks : list Z) (g : Z -> Z) (v : Z) :
  StronglySorted Z.lt ks -> In v ks ->
  JS.or0 (JS.get Z.eqb (tally ks g) v) = g v.
Proof.
  intros Hs Hin. induction Hs as [|k ks Hs IH Hk]; [destruct Hin|].
  rewrite tally_cons. destruct (Z.eqb_spec k v) as [->|Hne].
  - destruct (Z.eqb_spec (g v) 0) as [H0|H0].
    + rewrite get_above; [now rewrite H0 | now apply tally_keys_above].
    + simpl JS.get. rewrite Z.eqb_refl. apply or0_Some.
  - destruct Hin as [Heq|Hin]; [contradiction|].
    destruct (g k =? 0); [now apply IH|].
    simpl JS.get. destruct (Z.eqb_spec k v); [contradiction | now apply IH].
Qed.

Lemma valueTotal_nonneg (k : Z) (vs : list Z) : 0 <= valueTotal k vs.
Proof.
  induction vs as [|v vs IH]; simpl; [lia|]. destruct (v =? k); lia.
Qed.

Lemma valueFold_tally (ks vs : list Z) (g : Z -> Z) :
  StronglySorted Z.lt ks -> Forall (fun v => In v ks) vs ->
  (forall k, 0 <= g k) ->
  fold_left valueStep vs (tally ks g)
  = tally ks (fun k => g k + valueTotal k vs).
Proof.
  intros Hs Hvs. revert g.
  induction Hvs as [|v vs Hv _ IH]; intros g Hg; simpl.
  - apply tally_ext. intros k _. lia.
  - unfold valueStep at 2. rewrite get_tally by trivial.
    rewrite set_index_tally; trivial; [|pose proof (Hg v); lia].
    rewrite IH.
    + apply tally_ext. intros k _.
      rewrite (Z.eqb_sym k v). destruct (Z.eqb_spec v k); subst; lia.
    + intros k. pose proof (Hg k) as Hgk. pose proof (Hg v) as Hgv.
      destruct (k =? v); lia.
Qed.

Lemma numerics_sorted : StronglySorted Z.lt numerics.
Proof. unfold numerics. repeat constructor; lia. Qed.

(** [valueCount] holds, under each value that occurs, how often it occurs,
    in ascending order of the values. *)
Lemma valueCount_tally (vs : list Z) :
  Forall (fun v => 2 <= v <= 14) vs ->
  valueCount vs = tally numerics (fun k => valueTotal k vs).
Proof.
  intros Hr. unfold valueCount.
  rewrite <- (tally_zero numerics).
  rewrite valueFold_tally; trivial.
  - apply numerics_sorted.
  - eapply Forall_impl; [|exact Hr]. intros v. apply range_numerics.
  - intros k. lia.
Qed.

(** ** Facts about [counts] *)

Lemma valueTotal_Permutation (k : Z) (vs vs' : list Z) :
  Permutation vs vs' -> valueTotal k vs = valueTotal k vs'.
Proof. induction 1; simpl; lia. Qed.

Lemma Rank_eqb_numeric (a b : Rank) : Rank_eqb a b = (numeric a =? numeric b).
Proof. destruct a, b; reflexivity. Qed.

Lemma Rank_eqb_eq (a b : Rank) : Rank_eqb a b = true <-> a = b.
Proof. destruct a, b; simpl; split; congruence. Qed.

Lemma valueTotal_values (r : Rank) (cards : list PlayingCard) :
  valueTotal (numeric r) (values cards) = rankTotal r cards.
Proof.
  destruct (values_SortedValues cards) as [_ Hp].
  rewrite (valueTotal_Permutation _ _ _ Hp). clear Hp.
  induction cards as [|card cards IH]; simpl; [reflexivity|].
  now rewrite Rank_eqb_numeric, IH.
Qed.

Lemma rankTotal_nonneg (r : Rank) (cards : list PlayingCard) :
  0 <= rankTotal r cards.
Proof.
  induction cards as [|card cards IH]; simpl; [lia|].
  destruct (Rank_eqb (rank card) r); lia.
Qed.

Lemma counts_multiplicities (cards : list PlayingCard) :
  counts (valueCount (values cards)) = JS.sort descending (multiplicities cards).
Proof.
  unfold counts. rewrite valueCount_tally by apply values_range.
  rewrite tally_values. unfold multiplicities. do 2 f_equal.
  change numerics with (map numeric ranks). rewrite map_map.
  apply map_ext. intros r. apply valueTotal_values.
Qed.

Lemma insert_descending_Sorted (x : Z) (l : list Z) :
  Sorted Z.ge l -> Sorted Z.ge (JS.insert descending x l).
Proof.
  unfold descending.
  induction 1 as [|y l Hs IH Hhd]; simpl.
  - repeat constructor.
  - destruct (Z.leb_spec (y - x) 0).
    + repeat constructor; trivial. lia.
    + constructor; trivial.
      destruct Hhd as [|z l Hyz]; simpl.
      * repeat constructor. lia.
      * destruct (z - x <=? 0); constructor; lia.
Qed.

Lemma sort_descending_Sorted (l : list Z) : Sorted Z.ge (JS.sort descending l).
Proof.
  induction l as [|x l IH]; simpl.
  - constructor.
  - now apply insert_descending_Sorted.
Qed.

Lemma total_Permutation (l l' : list Z) :
  Permutation l l' -> total l = total l'.
Proof. unfold total. induction 1; simpl; lia. Qed.

Lemma total_nonzero (l : list Z) :
  total (filter (fun n => negb (n =? 0)) l) = total l.
Proof.
  unfold total. induction l as [|x l IH]; simpl; [reflexivity|].
  destruct (Z.eqb_spec x 0); simpl; lia.
Qed.

Lemma total_rankTotal (cards : list PlayingCard) :
  total (map (fun r => rankTotal r cards) ranks) = Z.of_nat (List.length cards).
Proof.
  induction cards as [|card cards IH]; [reflexivity|].
  change (List.length (card :: cards)) with (S (List.length cards)).
  rewrite Nat2Z.inj_succ, <- IH. unfold total, ranks.
  cbn [map fold_right rankTotal].
  destruct (rank card); cbv [Rank_eqb]; lia.
Qed.

Lemma multiplicities_positive (cards : list PlayingCard) :
  Forall (fun n => 1 <= n) (multiplicities cards).
Proof.
  unfold multiplicities. apply Forall_forall. intros n Hn.
  apply filter_In in Hn. destruct Hn as [Hin Hnz].
  apply in_map_iff in Hin. destruct Hin as [r [<- _]].
  pose proof (rankTotal_nonneg r cards).
  destruct (Z.eqb_spec (rankTotal r cards) 0); [discriminate | lia].
Qed.

Lemma counts_facts (cards : list PlayingCard) :
  Sorted Z.ge (counts (valueCount (values cards)))
  /\ Forall (fun n => 1 <= n) (counts (valueCount (values cards)))
  /\ total (counts (valueCount (values cards))) = Z.of_nat (List.length cards).
Proof.
  rewrite counts_multiplicities. repeat split.
  - apply sort_descending_Sorted.
  - eapply Permutation_Forall;
      [apply Permutation_sym, sort_Permutation | apply multiplicities_positive].
  - rewrite (total_Permutation _ _ (sort_Permutation descending _)).
    unfold multiplicities. rewrite total_nonzero. apply total_rankTotal.
Qed.

Lemma total_positive (l : list Z) : Forall (fun n => 1 <= n) l -> 0 <= total l.
Proof. unfold total. induction 1; simpl; lia. Qed.

(** Takes the hypotheses on a list spelled out apart. *)
Ltac spell_out :=
  repeat match goal with
    | H : Sorted _ (_ :: _) |- _ => inversion H; clear H; subst
    | H : HdRel _ _ (_ :: _) |- _ => inversion H; clear H; subst
    | H : Forall _ (_ :: _) |- _ => inversion H; clear H; subst
    end.

Lemma partition_of_5 (l : list Z) :
  Sorted Z.ge l -> Forall (fun n => 1 <= n) l -> total l = 5 ->
  In l partitions5.
Proof.
  intros Hs Hp Ht.
  destruct l as [|a [|b [|c [|d [|e [|f l]]]]]]; spell_out;
    unfold total in Ht; simpl in Ht; unfold partitions5; simpl.
  - lia.
  - left. f_equal. lia.
  - assert (H : a = 4 /\ b = 1 \/ a = 3 /\ b = 2) by lia.
    destruct H as [[-> ->]|[-> ->]]; tauto.
  - assert (H : a = 3 /\ b = 1 /\ c = 1 \/ a = 2 /\ b = 2 /\ c = 1) by lia.
    destruct H as [(-> & -> & ->)|(-> & -> & ->)]; tauto.
  - assert (H : a = 2 /\ b = 1 /\ c = 1 /\ d = 1) by lia.
    destruct H as (-> & -> & -> & ->); tauto.
  - assert (H : a = 1 /\ b = 1 /\ c = 1 /\ d = 1 /\ e = 1) by lia.
    destruct H as (-> & -> & -> & -> & ->); tauto.
  - match goal with H : Forall _ l |- _ => apply total_positive in H end.
    unfold total in *. lia.
Qed.

Lemma counts_partitions5 (cards : list PlayingCard) :
  List.length cards = 5%nat ->
  In (counts (valueCount (values cards))) partitions5.
Proof.
  intros Hlen. destruct (counts_facts cards) as (Hs & Hp & Ht).
  rewrite Hlen in Ht. now apply partition_of_5.
Qed.

Lemma In_ranks (r : Rank) : In r ranks.
Proof. destruct r; unfold ranks; simpl; tauto. Qed.

Lemma counts_In (n : Z) (cards : list PlayingCard) :
  In n (counts (valueCount (values cards)))
  <-> n <> 0 /\ exists r, rankTotal r cards = n.
Proof.
  rewrite counts_multiplicities.
  assert (Hp := sort_Permutation descending (multiplicities cards)).
  split.
  - intros Hin. apply (Permutation_in _ Hp) in Hin.
    apply filter_In in Hin. destruct Hin as [Hin Hnz].
    apply in_map_iff in Hin. destruct Hin as [r [Hr _]].
    split; [|now exists r].
    destruct (Z.eqb_spec n 0); [discriminate | assumption].
  - intros [Hnz [r Hr]].
    apply (Permutation_in _ (Permutation_sym Hp)).
    apply filter_In. split.
    + apply in_map_iff. exists r. split; [exact Hr | apply In_ranks].
    + destruct (Z.eqb_spec n 0); [contradiction | reflexivity].
Qed.

(** ** The result, case by case *)

(** What is known of the ingredients of the result on five cards. *)
Lemma hand_cases (cards : list PlayingCard) :
  List.length cards = 5%nat ->
  exists f s cs,
    (f = true <-> FlushHand cards)
    /\ (s = true <-> StraightHand cards)
    /\ s = isStraight (values cards)
    /\ cs = counts (valueCount (values cards))
    /\ (s = true -> cs = [1; 1; 1; 1; 1])
    /\ In cs partitions5
    /\ evaluateHand cards = Some (rankOf f s (values cards) cs).
Proof.
  intros Hlen.
  exists (isFlush (suitsCount cards)), (isStraight (values cards)),
    (counts (valueCount (values cards))).
  repeat split; try tauto.
  - now apply isFlush_FlushHand.
  - now apply isFlush_FlushHand.
  - now apply isStraight_StraightHand.
  - now apply isStraight_StraightHand.
  - apply straight_counts; [now rewrite values_length | apply values_range].
  - now apply counts_partitions5.
  - now apply evaluateHand_five.
Qed.

(** Splits on the seven possible frequency lists. *)
Ltac shapes H :=
  unfold partitions5 in H; simpl in H;
  destruct H as [<-|[<-|[<-|[<-|[<-|[<-|[<-|[]]]]]]]].

(** Sets up a proof by cases on flush, straight and the frequency list. *)
Ltac by_cases cards Hlen :=
  let f := fresh "f" in
  let s := fresh "s" in
  let cs := fresh "cs" in
  let Hf := fresh "Hf" in
  let Hs := fresh "Hs" in
  let Hsv := fresh "Hsv" in
  let Hcs := fresh "Hcs" in
  let Hones := fresh "Hones" in
  let Hin := fresh "Hin" in
  let He := fresh "He" in
  destruct (hand_cases cards Hlen)
    as (f & s & cs & Hf & Hs & Hsv & Hcs & Hones & Hin & He);
  rewrite He; clear He;
  try rewrite <- Hcs; try rewrite <- Hf; try rewrite <- Hs;
  shapes Hin; destruct f, s;
  try (specialize (Hones eq_refl); discriminate Hones);
  unfold rankOf; simpl.

Lemma straight_high_card (vs : list Z) :
  List.length vs = 5%nat -> Forall (fun v => 2 <= v <= 14) vs ->
  isStraight vs = true ->
  JS.at_is vs 4 14 = true <-> vs = [10; 11; 12; 13; 14] \/ vs = wheel.
Proof.
  intros Hlen Hr Hs. apply isStraight_iff in Hs; trivial.
  destruct Hs as [[k ->]| ->].
  - unfold JS.at_is. simpl. rewrite Z.eqb_eq. split.
    + intros Hk. left. repeat f_equal; lia.
    + unfold wheel. intros [H|H]; injection H; intros; lia.
  - split; [now right | reflexivity].
Qed.

(** ** Further properties of [evaluateHand] *)

(** X1.  On five cards the result is Royal Flush exactly when all cards share
    a suit and the sorted values are 10,11,12,13,14 or the wheel 2,3,4,5,14. *)
Theorem royal_flush_iff (cards : list PlayingCard) :
  List.length cards = 5%nat ->
  evaluateHand cards = Some RoyalFlush
  <-> FlushHand cards
      /\ (values cards = [10; 11; 12; 13; 14] \/ values cards = wheel).
Proof.
  intros Hlen.
  assert (Hhigh := straight_high_card (values cards)
                     (eq_trans (values_length cards) Hlen) (values_range cards)).
  destruct (hand_cases cards Hlen)
    as (f & s & cs & Hf & Hs & Hsv & Hcs & Hones & Hin & He).
  rewrite He, <- Hf, <- Hsv in *. clear He.
  destruct f, s.
  - specialize (Hhigh eq_refl). unfold rankOf. simpl.
    destruct (JS.at_is (values cards) 4 14).
    + split; [intros _; split; [reflexivity | now apply Hhigh] | reflexivity].
    + split; [discriminate | intros [_ H]; apply Hhigh in H; discriminate].
  - split.
    + shapes Hin; discriminate.
    + intros [_ [H|H]]; rewrite H in Hsv; discriminate.
  - split; [|intros [H _]; discriminate].
    shapes Hin; discriminate.
  - split; [|intros [H _]; discriminate].
    shapes Hin; discriminate.
Qed.

Lemma royal_flush_iff_witness :
  evaluateHand royal_spades = Some RoyalFlush
  <-> FlushHand royal_spades
      /\ (values royal_spades = [10; 11; 12; 13; 14]
          \/ values royal_spades = wheel).
Proof. apply (royal_flush_iff royal_spades). reflexivity. Defined.

(** X2.  On five cards the result is Straight Flush exactly when all cards
    share a suit and the sorted values are five consecutive integers ending
    below the Ace. *)
Theorem straight_flush_iff (cards : list PlayingCard) :
  List.length cards = 5%nat ->
  evaluateHand cards = Some StraightFlush
  <-> FlushHand cards
      /\ exists k, k <= 9 /\ values cards = [k; k + 1; k + 2; k + 3; k + 4].
Proof.
  intros Hlen.
  assert (Hvl := eq_trans (values_length cards) Hlen).
  assert (Hvr := values_range cards).
  assert (Hiff := isStraight_iff (values cards) Hvl Hvr).
  destruct (hand_cases cards Hlen)
    as (f & s & cs & Hf & Hs & Hsv & Hcs & Hones & Hin & He).
  rewrite He, <- Hf, <- Hsv in *. clear He.
  destruct f, s.
  - unfold rankOf. simpl.
    destruct (JS.at_is (values cards) 4 14) eqn:Hhigh.
    + split; [discriminate|]. intros [_ [k [Hk Hv]]].
      rewrite Hv in Hhigh. unfold JS.at_is in Hhigh. simpl in Hhigh.
      apply Z.eqb_eq in Hhigh. lia.
    + split; [|reflexivity]. intros _. split; [reflexivity|].
      destruct (proj1 Hiff eq_refl) as [[k Hv]|Hv];
        [|rewrite Hv in Hhigh; discriminate].
      exists k. split; trivial.
      rewrite Hv in Hhigh, Hvr. unfold JS.at_is in Hhigh. simpl in Hhigh.
      apply Z.eqb_neq in Hhigh. spell_out. lia.
  - split.
    + shapes Hin; discriminate.
    + intros [_ [k [_ Hv]]].
      assert (Hc : false = true) by (apply Hiff; left; now exists k).
      discriminate.
  - split; [|intros [H _]; discriminate]. shapes Hin; discriminate.
  - split; [|intros [H _]; discriminate]. shapes Hin; discriminate.
Qed.

Lemma straight_flush_iff_witness :
  evaluateHand straight_flush_hearts = Some StraightFlush
  <-> FlushHand straight_flush_hearts
      /\ exists k, k <= 9
           /\ values straight_flush_hearts = [k; k + 1; k + 2; k + 3; k + 4].
Proof. apply (straight_flush_iff straight_flush_hearts). reflexivity. Defined.

(** Closes the cases left by [by_cases]. *)
Ltac settle :=
  simpl;
  try match goal with
    | |- context [JS.at_is ?vs 4 14] => destruct (JS.at_is vs 4 14)
    end;
  intuition (try discriminate; try congruence).

(** X3.  On five cards the result is Four of a Kind exactly when some rank
    occurs four times. *)
Theorem four_of_a_kind_iff (cards : list PlayingCard) :
  List.length cards = 5%nat ->
  evaluateHand cards = Some FourOfAKind <-> exists r, rankTotal r cards = 4.
Proof.
  intros Hlen.
  assert (H4 : In 4 (counts (valueCount (values cards)))
               <-> exists r, rankTotal r cards = 4).
  { rewrite counts_In. split; [tauto | split; [discriminate | assumption]]. }
  rewrite <- H4. clear H4.
  by_cases cards Hlen; settle.
Qed.

Lemma four_of_a_kind_iff_witness :
  evaluateHand four_sevens = Some FourOfAKind
  <-> exists r, rankTotal r four_sevens = 4.
Proof. apply (four_of_a_kind_iff four_sevens). reflexivity. Defined.

(** X4.  On five cards the result is Full House exactly when some rank occurs
    three times and some rank occurs twice. *)
Theorem full_house_iff (cards : list PlayingCard) :
  List.length cards = 5%nat ->
  evaluateHand cards = Some FullHouse
  <-> (exists r, rankTotal r cards = 3) /\ (exists r, rankTotal r cards = 2).
Proof.
  intros Hlen.
  assert (H3 : In 3 (counts (valueCount (values cards)))
               <-> exists r, rankTotal r cards = 3).
  { rewrite counts_In. split; [tauto | split; [discriminate | assumption]]. }
  assert (H2 : In 2 (counts (valueCount (values cards)))
               <-> exists r, rankTotal r cards = 2).
  { rewrite counts_In. split; [tauto | split; [discriminate | assumption]]. }
  rewrite <- H3, <- H2. clear H3 H2.
  by_cases cards Hlen; settle.
Qed.

Lemma full_house_iff_witness :
  evaluateHand full_house_hand = Some FullHouse
  <-> (exists r, rankTotal r full_house_hand = 3)
      /\ (exists r, rankTotal r full_house_hand = 2).
Proof. apply (full_house_iff full_house_hand). reflexivity. Defined.

(** X5.  On five cards the result is Straight exactly when the hand is a
    straight and not a flush. *)
Theorem straight_iff (cards : list PlayingCard) :
  List.length cards = 5%nat ->
  evaluateHand cards = Some Straight
  <-> StraightHand cards /\ ~ FlushHand cards.
Proof. intros Hlen. by_cases cards Hlen; settle. Qed.

Lemma straight_iff_witness :
  evaluateHand straight_mixed = Some Straight
  <-> StraightHand straight_mixed /\ ~ FlushHand straight_mixed.
Proof. apply (straight_iff straight_mixed). reflexivity. Defined.

Lemma flush_iff_counts (cards : list PlayingCard) :
  List.length cards = 5%nat ->
  evaluateHand cards = Some Flush
  <-> FlushHand cards /\ ~ StraightHand cards
      /\ counts (valueCount (values cards)) <> [4; 1]
      /\ counts (valueCount (values cards)) <> [3; 2].
Proof. intros Hlen. by_cases cards Hlen; settle. Qed.

(** X6.  On five cards the result is Flush exactly when all cards share a
    suit, the hand is not a straight, and the frequencies are neither 4,1
    nor 3,2. *)
Theorem flush_iff (cards : list PlayingCard) :
  List.length cards = 5%nat ->
  evaluateHand cards = Some Flush
  <-> FlushHand cards /\ ~ StraightHand cards
      /\ counts (valueCount (values cards)) <> [4; 1]
      /\ counts (valueCount (values cards)) <> [3; 2].
Proof. apply flush_iff_counts. Qed.

Lemma flush_iff_witness :
  evaluateHand flush_clubs = Some Flush
  <-> FlushHand flush_clubs /\ ~ StraightHand flush_clubs
      /\ counts (valueCount (values flush_clubs)) <> [4; 1]
      /\ counts (valueCount (values flush_clubs)) <> [3; 2].
Proof. apply (flush_iff flush_clubs). reflexivity. Defined.

(** X7.  On five cards that do not share a suit, the frequencies 3,1,1 mean
    Three of a Kind, 2,2,1 Two Pair and 2,1,1,1 Pair, and those results arise
    in no other way. *)
Theorem kind_and_pairs_iff (cards : list PlayingCard) :
  List.length cards = 5%nat ->
  (evaluateHand cards = Some ThreeOfAKind
   <-> ~ FlushHand cards /\ counts (valueCount (values cards)) = [3; 1; 1])
  /\ (evaluateHand cards = Some TwoPair
      <-> ~ FlushHand cards /\ counts (valueCount (values cards)) = [2; 2; 1])
  /\ (evaluateHand cards = Some Pair
      <-> ~ FlushHand cards
          /\ counts (valueCount (values cards)) = [2; 1; 1; 1]).
Proof. intros Hlen. by_cases cards Hlen; settle. Qed.

Lemma kind_and_pairs_iff_witness :
  (evaluateHand two_pair_hand = Some ThreeOfAKind
   <-> ~ FlushHand two_pair_hand
       /\ counts (valueCount (values two_pair_hand)) = [3; 1; 1])
  /\ (evaluateHand two_pair_hand = Some TwoPair
      <-> ~ FlushHand two_pair_hand
          /\ counts (valueCount (values two_pair_hand)) = [2; 2; 1])
  /\ (evaluateHand two_pair_hand = Some Pair
      <-> ~ FlushHand two_pair_hand
          /\ counts (valueCount (values two_pair_hand)) = [2; 1; 1; 1]).
Proof. apply (kind_and_pairs_iff two_pair_hand). reflexivity. Defined.

Lemma high_card_iff_counts (cards : list PlayingCard) :
  List.length cards = 5%nat ->
  evaluateHand cards = Some HighCard
  <-> ~ FlushHand cards /\ ~ StraightHand cards
      /\ (counts (valueCount (values cards)) = [1; 1; 1; 1; 1]
          \/ counts (valueCount (values cards)) = [5]).
Proof. intros Hlen. by_cases cards Hlen; settle. Qed.

(** X8.  On five cards the result is High Card exactly when the hand is
    neither a flush nor a straight and its ranks are all different or all
    the same. *)
Theorem high_card_iff (cards : list PlayingCard) :
  List.length cards = 5%nat ->
  evaluateHand cards = Some HighCard
  <-> ~ FlushHand cards /\ ~ StraightHand cards
      /\ (counts (valueCount (values cards)) = [1; 1; 1; 1; 1]
          \/ counts (valueCount (values cards)) = [5]).
Proof. apply high_card_iff_counts. Qed.

Lemma high_card_iff_witness :
  evaluateHand high_card_hand = Some HighCard
  <-> ~ FlushHand high_card_hand /\ ~ StraightHand high_card_hand
      /\ (counts (valueCount (values high_card_hand)) = [1; 1; 1; 1; 1]
          \/ counts (valueCount (values high_card_hand)) = [5]).
Proof. apply (high_card_iff high_card_hand). reflexivity. Defined.

(** ** Hands of distinct cards *)

Lemma rankTotal_In (r : Rank) (cards : list PlayingCard) :
  0 < rankTotal r cards -> exists card, In card cards /\ rank card = r.
Proof.
  induction cards as [|card cards IH]; simpl; [lia|].
  destruct (Rank_eqb (rank card) r) eqn:E.
  - intros _. exists card. split; [now left | now apply Rank_eqb_eq].
  - intros H. destruct (IH H) as [c' [Hin Hr]]. exists c'. split; [now right | exact Hr].
Qed.

Lemma rankTotal_filter (r : Rank) (cards : list PlayingCard) :
  rankTotal r cards
  = Z.of_nat (List.length (filter (fun card => Rank_eqb (rank card) r) cards)).
Proof.
  induction cards as [|card cards IH]; simpl; [reflexivity|].
  destruct (Rank_eqb (rank card) r); simpl List.length; lia.
Qed.

Lemma card_eq (a b : PlayingCard) : rank a = rank b -> suit a = suit b -> a = b.
Proof. destruct a, b; simpl; congruence. Qed.

(** Among distinct cards a rank occurs at most four times, once per suit. *)
Lemma distinct_rankTotal (r : Rank) (cards : list PlayingCard) :
  NoDup cards -> rankTotal r cards <= 4.
Proof.
  intros Hnd. rewrite rankTotal_filter.
  set (l := filter (fun card => Rank_eqb (rank card) r) cards).
  assert (Hl : NoDup (map suit l)).
  { apply NoDup_map_NoDup_ForallPairs; [|now apply NoDup_filter].
    intros a b Ha Hb Hs. apply card_eq; trivial.
    apply filter_In in Ha, Hb. destruct Ha as [_ Ha], Hb as [_ Hb].
    apply Rank_eqb_eq in Ha, Hb. congruence. }
  assert (Hincl : incl (map suit l) suits)
    by (intros s _; destruct s; unfold suits; simpl; tauto).
  pose proof (NoDup_incl_length Hl Hincl) as Hlen.
  rewrite length_map in Hlen. simpl in Hlen. lia.
Qed.

(** Among distinct cards of one suit every rank occurs at most once. *)
Lemma flush_distinct_rankTotal (r : Rank) (cards : list PlayingCard) :
  NoDup cards -> FlushHand cards -> rankTotal r cards <= 1.
Proof.
  intros Hnd [s Hs].
  induction Hnd as [|card cards Hnotin Hnd IH]; simpl; [lia|].
  inversion Hs as [|? ? Hc Hs']; subst.
  specialize (IH Hs').
  destruct (Rank_eqb (rank card) r) eqn:E; [|lia].
  apply Rank_eqb_eq in E.
  destruct (Z.eq_dec (rankTotal r cards) 0) as [H0|H0]; [lia|].
  pose proof (rankTotal_nonneg r cards).
  destruct (rankTotal_In r cards) as [c' [Hin Hr]]; [lia|].
  exfalso. apply Hnotin.
  rewrite Forall_forall in Hs'.
  replace card with c'; trivial.
  apply card_eq; [congruence | now apply Hs'].
Qed.

Lemma counts_ones_iff (cards : list PlayingCard) :
  List.length cards = 5%nat ->
  counts (valueCount (values cards)) = [1; 1; 1; 1; 1]
  <-> forall r, rankTotal r cards <= 1.
Proof.
  intros Hlen. split.
  - intros Hc r. pose proof (rankTotal_nonneg r cards).
    destruct (Z.eq_dec (rankTotal r cards) 0) as [H0|H0]; [lia|].
    assert (Hin : In (rankTotal r cards) (counts (valueCount (values cards))))
      by (apply counts_In; split; [assumption | now exists r]).
    rewrite Hc in Hin. simpl in Hin. lia.
  - intros Hle.
    assert (Hall : forall n, In n (counts (valueCount (values cards))) -> n <= 1).
    { intros n Hn. apply counts_In in Hn. destruct Hn as [_ [r <-]]. apply Hle. }
    pose proof (counts_partitions5 cards Hlen) as Hin.
    remember (counts (valueCount (values cards))) as cs eqn:Hcs. clear Hcs.
    shapes Hin; trivial;
      match goal with
      | |- ?n :: _ = _ => specialize (Hall n)
      end; simpl in Hall; lia.
Qed.

(** X9.  On five distinct cards the result is Flush exactly when all cards
    share a suit and the hand is not a straight. *)
Theorem distinct_flush_iff (cards : list PlayingCard) :
  List.length cards = 5%nat -> NoDup cards ->
  evaluateHand cards = Some Flush <-> FlushHand cards /\ ~ StraightHand cards.
Proof.
  intros Hlen Hnd. rewrite (flush_iff_counts cards Hlen). split.
  - tauto.
  - intros [Hf Hs]. repeat split; trivial.
    + assert (H1 : counts (valueCount (values cards)) = [1; 1; 1; 1; 1]).
      { apply counts_ones_iff; trivial.
        intros r. now apply flush_distinct_rankTotal. }
      rewrite H1. discriminate.
    + assert (H1 : counts (valueCount (values cards)) = [1; 1; 1; 1; 1]).
      { apply counts_ones_iff; trivial.
        intros r. now apply flush_distinct_rankTotal. }
      rewrite H1. discriminate.
Qed.

Lemma distinct_flush_iff_witness :
  evaluateHand flush_clubs = Some Flush
  <-> FlushHand flush_clubs /\ ~ StraightHand flush_clubs.
Proof.
  apply (distinct_flush_iff flush_clubs).
  - reflexivity.
  - unfold flush_clubs. repeat (constructor; [simpl; intuition discriminate|]); constructor.
Defined.

(** X10.  On five distinct cards the result is High Card exactly when the
    hand is neither a flush nor a straight and no two cards share a rank. *)
Theorem distinct_high_card_iff (cards : list PlayingCard) :
  List.length cards = 5%nat -> NoDup cards ->
  evaluateHand cards = Some HighCard
  <-> ~ FlushHand cards /\ ~ StraightHand cards
      /\ forall r, rankTotal r cards <= 1.
Proof.
  intros Hlen Hnd. rewrite (high_card_iff_counts cards Hlen).
  rewrite (counts_ones_iff cards Hlen). split.
  - intros (Hf & Hs & [H1|H5]); repeat split; trivial.
    exfalso.
    assert (Hin : In 5 (counts (valueCount (values cards))))
      by (rewrite H5; now left).
    apply counts_In in Hin. destruct Hin as [_ [r Hr]].
    pose proof (distinct_rankTotal r cards Hnd). lia.
  - intros (Hf & Hs & H1). repeat split; trivial. now left.
Qed.

Lemma distinct_high_card_iff_witness :
  evaluateHand high_card_hand = Some HighCard
  <-> ~ FlushHand high_card_hand /\ ~ StraightHand high_card_hand
      /\ forall r, rankTotal r high_card_hand <= 1.
Proof.
  apply (distinct_high_card_iff high_card_hand).
  - reflexivity.
  - unfold high_card_hand. repeat (constructor; [simpl; intuition discriminate|]); constructor.
Defined.

(** ** Facts about the frequency objects, continued *)

Lemma suitFold_positive (cards : list PlayingCard) (acc : JS.Record Suit) :
  (forall s v, JS.get Suit_eqb acc s = Some v -> 1 <= v) ->
  forall s v, JS.get Suit_eqb (fold_left suitStep cards acc) s = Some v -> 1 <= v.
Proof.
  revert acc. induction cards as [|card cards IH]; intros acc Hacc; simpl.
  - exact Hacc.
  - apply IH. intros s v. unfold suitStep.
    destruct (Suit_eqb (suit card) s) eqn:E.
    + apply Suit_eqb_eq in E. subst s.
      rewrite (get_set_same Suit_eqb Suit_eqb_eq). intros [= <-].
      destruct (JS.get Suit_eqb acc (suit card)) as [w|] eqn:Hw.
      * rewrite or0_Some. specialize (Hacc _ _ Hw). lia.
      * simpl. lia.
    + rewrite (get_set_other Suit_eqb Suit_eqb_eq).
      * apply Hacc.
      * intros Heq. apply Suit_eqb_eq in Heq. congruence.
Qed.

Lemma get_tally_exact (ks : list Z) (g : Z -> Z) (v : Z) :
  StronglySorted Z.lt ks -> In v ks ->
  JS.get Z.eqb (tally ks g) v = if g v =? 0 then None else Some (g v).
Proof.
  intros Hs Hin. induction Hs as [|k ks Hs IH Hk]; [destruct Hin|].
  rewrite tally_cons. destruct (Z.eqb_spec k v) as [->|Hne].
  - destruct (Z.eqb_spec (g v) 0) as [H0|H0].
    + apply get_above. now apply tally_keys_above.
    + simpl JS.get. now rewrite Z.eqb_refl.
  - destruct Hin as [Heq|Hin]; [contradiction|].
    destruct (g k =? 0); [now apply IH|].
    simpl JS.get. destruct (Z.eqb_spec k v); [contradiction | now apply IH].
Qed.

Lemma get_tally_absent (ks : list Z) (g : Z -> Z) (v : Z) :
  ~ In v ks -> JS.get Z.eqb (tally ks g) v = None.
Proof.
  induction ks as [|k ks IH]; intros Hnotin; [reflexivity|].
  rewrite tally_cons.
  assert (Hks : ~ In v ks) by (intros H; apply Hnotin; now right).
  destruct (g k =? 0); [now apply IH|].
  simpl JS.get. destruct (Z.eqb_spec k v) as [->|_]; [|now apply IH].
  exfalso. apply Hnotin. now left.
Qed.

Lemma tally_keys_sorted (ks : list Z) (g : Z -> Z) :
  StronglySorted Z.lt ks -> StronglySorted Z.lt (map fst (tally ks g)).
Proof.
  induction 1 as [|k ks Hs IH Hk]; [constructor|].
  rewrite tally_cons. destruct (g k =? 0); trivial.
  simpl. constructor; trivial.
  apply Forall_map. apply (tally_keys_above k ks g Hk).
Qed.

Lemma valueTotal_absent (k : Z) (vs : list Z) :
  ~ In k vs -> valueTotal k vs = 0.
Proof.
  induction vs as [|v vs IH]; simpl; [reflexivity|]. intros Hnotin.
  destruct (Z.eqb_spec v k) as [->|_]; [exfalso; apply Hnotin; now left|].
  rewrite IH; [reflexivity|]. intros H. apply Hnotin. now right.
Qed.

(** ** Properties of the intermediate values *)

(** X11.  [values] is the ascending rearrangement of the numeric values of the
    cards, each between 2 and 14, one per card. *)
Theorem values_spec (cards : list PlayingCard) :
  Sorted Z.le (values cards)
  /\ Permutation (values cards) (map (fun card => numeric (rank card)) cards)
  /\ Forall (fun v => 2 <= v <= 14) (values cards)
  /\ List.length (values cards) = List.length cards.
Proof.
  destruct (values_SortedValues cards) as [Hs Hp].
  repeat split; trivial; [apply values_range | apply values_length].
Qed.

(** X12.  [suitsCount] holds under each suit the number of selected cards of
    that suit, and has no property for a suit that no card has. *)
Theorem suitsCount_spec (cards : list PlayingCard) (s : Suit) :
  JS.get Suit_eqb (suitsCount cards) s
  = if suitTotal s cards =? 0 then None else Some (suitTotal s cards).
Proof.
  pose proof (suitFold_or0 cards [] s) as Hor. simpl in Hor.
  change (fold_left suitStep cards []) with (suitsCount cards) in Hor.
  assert (Hpos : forall v, JS.get Suit_eqb (suitsCount cards) s = Some v -> 1 <= v).
  { apply (suitFold_positive cards []). discriminate. }
  destruct (JS.get Suit_eqb (suitsCount cards) s) as [v|].
  - rewrite or0_Some in Hor. specialize (Hpos v eq_refl). subst v.
    destruct (Z.eqb_spec (suitTotal s cards) 0); [lia | reflexivity].
  - simpl in Hor. now rewrite <- Hor.
Qed.

(** X13.  On five cards the flush test holds exactly when all cards share one
    suit. *)
Theorem flush_test_iff (cards : list PlayingCard) :
  List.length cards = 5%nat ->
  isFlush (suitsCount cards) = true <-> FlushHand cards.
Proof. apply isFlush_FlushHand. Qed.

Lemma flush_test_iff_witness :
  isFlush (suitsCount royal_spades) = true <-> FlushHand royal_spades.
Proof. apply (flush_test_iff royal_spades). reflexivity. Defined.

(** X14.  For values between 2 and 14, [valueCount] holds under each value
    that occurs the number of times it occurs, has no property for a value
    that does not occur, and enumerates its keys in ascending order. *)
Theorem valueCount_spec (vs : list Z) :
  Forall (fun v => 2 <= v <= 14) vs ->
  StronglySorted Z.lt (map fst (valueCount vs))
  /\ forall k, JS.get Z.eqb (valueCount vs) k
               = if valueTotal k vs =? 0 then None else Some (valueTotal k vs).
Proof.
  intros Hr. rewrite (valueCount_tally vs Hr). split.
  - apply tally_keys_sorted, numerics_sorted.
  - intros k. destruct (in_dec Z.eq_dec k numerics) as [Hin|Hnotin].
    + now apply get_tally_exact; [apply numerics_sorted|].
    + rewrite get_tally_absent by trivial.
      rewrite valueTotal_absent; [reflexivity|].
      intros Hk. apply Hnotin, range_numerics.
      rewrite Forall_forall in Hr. now apply Hr.
Qed.

Lemma valueCount_spec_witness :
  StronglySorted Z.lt (map fst (valueCount [2; 2; 5; 5; 13]))
  /\ forall k, JS.get Z.eqb (valueCount [2; 2; 5; 5; 13]) k
               = if valueTotal k [2; 2; 5; 5; 13] =? 0 then None
                 else Some (valueTotal k [2; 2; 5; 5; 13]).
Proof.
  apply (valueCount_spec [2; 2; 5; 5; 13]). repeat constructor; discriminate.
Defined.

(** X15.  [counts] lists the non-zero rank multiplicities of the cards,
    largest first; they add up to the number of cards. *)
Theorem counts_spec (cards : list PlayingCard) :
  Sorted Z.ge (counts (valueCount (values cards)))
  /\ Permutation (counts (valueCount (values cards))) (multiplicities cards)
  /\ total (counts (valueCount (values cards))) = Z.of_nat (List.length cards).
Proof.
  destruct (counts_facts cards) as (Hs & _ & Ht). repeat split; trivial.
  rewrite counts_multiplicities. apply sort_Permutation.
Qed.

(** X16.  On five cards [counts] is one of 5; 4,1; 3,2; 3,1,1; 2,2,1;
    2,1,1,1; 1,1,1,1,1. *)
Theorem counts_partition (cards : list PlayingCard) :
  List.length cards = 5%nat ->
  In (counts (valueCount (values cards))) partitions5.
Proof. apply counts_partitions5. Qed.

Lemma counts_partition_witness :
  In (counts (valueCount (values full_house_hand))) partitions5.
Proof. apply (counts_partition full_house_hand). reflexivity. Defined.

(** ** The selection handlers *)

Import PokerHandEvaluator.

Lemma cardKey_inj (a b : PlayingCard) : cardKey a = cardKey b -> a = b.
Proof.
  destruct a as [sa ra], b as [sb rb]. unfold cardKey. simpl.
  destruct ra, rb; simpl; intros H; try discriminate H;
    destruct sa, sb; simpl in H; try discriminate H; reflexivity.
Qed.

Lemma cardKey_eqb (a b : PlayingCard) :
  String.eqb (cardKey a) (cardKey b) = true <-> a = b.
Proof.
  rewrite String.eqb_eq. split; [apply cardKey_inj | now intros ->].
Qed.

(** The test by key in [toggleCard] is membership in the selection. *)
Lemma selected_by_key (card : PlayingCard) (cards : list PlayingCard) :
  JS.some (fun c => String.eqb (cardKey c) (cardKey card)) cards = true
  <-> In card cards.
Proof.
  unfold JS.some. rewrite existsb_exists. split.
  - intros [c [Hin Hc]]. apply cardKey_eqb in Hc. now subst c.
  - intros Hin. exists card. split; trivial. now apply cardKey_eqb.
Qed.

(** The test by fields in the grid is membership too. *)
Lemma isSelected_In (st : State) (card : PlayingCard) :
  isSelected st card = true <-> In card (selectedCards st).
Proof.
  unfold isSelected, JS.some. rewrite existsb_exists. split.
  - intros [c [Hin Hc]]. apply andb_true_iff in Hc. destruct Hc as [Hr Hs].
    apply Rank_eqb_eq in Hr. apply Suit_eqb_eq in Hs.
    now rewrite <- (card_eq c card Hr Hs).
  - intros Hin. exists card. split; trivial.
    apply andb_true_iff. split; [now apply Rank_eqb_eq | now apply Suit_eqb_eq].
Qed.

Lemma In_without (card c : PlayingCard) (cards : list PlayingCard) :
  In c (filter (fun c => negb (String.eqb (cardKey c) (cardKey card))) cards)
  <-> In c cards /\ c <> card.
Proof.
  rewrite filter_In, negb_true_iff. split; intros [Hin Hc]; split; trivial.
  - intros ->. rewrite String.eqb_refl in Hc. discriminate.
  - destruct (String.eqb (cardKey c) (cardKey card)) eqn:E; trivial.
    apply cardKey_eqb in E. contradiction.
Qed.

Lemma without_absent (card : PlayingCard) (cards : list PlayingCard) :
  ~ In card cards ->
  filter (fun c => negb (String.eqb (cardKey c) (cardKey card))) cards = cards.
Proof.
  intros Hnotin. apply forallb_filter_id, forallb_forall. intros c Hc.
  apply negb_true_iff.
  destruct (String.eqb (cardKey c) (cardKey card)) eqn:E; trivial.
  apply cardKey_eqb in E. subst c. contradiction.
Qed.

Lemma length_without (card : PlayingCard) (cards : list PlayingCard) :
  NoDup cards -> In card cards ->
  S (List.length
       (filter (fun c => negb (String.eqb (cardKey c) (cardKey card))) cards))
  = List.length cards.
Proof.
  induction 1 as [|c cards Hnotin Hnd IH]; intros Hin; [destruct Hin|].
  simpl. destruct (String.eqb (cardKey c) (cardKey card)) eqn:E; simpl.
  - apply cardKey_eqb in E. subst c. now rewrite without_absent.
  - destruct Hin as [->|Hin]; [|now rewrite IH].
    rewrite String.eqb_refl in E. discriminate.
Qed.

Lemma toggle_selected_eq (card : PlayingCard) (st : State) :
  In card (selectedCards st) ->
  toggleCard card st
  = mkState
      (filter (fun c => negb (String.eqb (cardKey c) (cardKey card)))
         (selectedCards st))
      "".
Proof.
  intros Hin. unfold toggleCard.
  now rewrite (proj2 (selected_by_key card (selectedCards st)) Hin).
Qed.

Lemma toggle_unselected_eq (card : PlayingCard) (st : State) :
  ~ In card (selectedCards st) ->
  toggleCard card st
  = if (List.length (selectedCards st) <? 5)%nat
    then mkState (selectedCards st ++ [card]) ""
    else mkState (selectedCards st) "You can only select 5 cards".
Proof.
  intros Hnotin. unfold toggleCard.
  destruct (JS.some _ (selectedCards st)) eqn:E; trivial.
  apply selected_by_key in E. contradiction.
Qed.




(** X17.  Two cards have the same key exactly when they are the same card. *)
Theorem cardKey_injective (a b : PlayingCard) : cardKey a = cardKey b <-> a = b.
Proof. split; [apply cardKey_inj | now intros ->]. Qed.

(** X18.  [allCards] is the full deck: 52 cards, no card twice, every card
    present. *)
Theorem allCards_deck :
  List.length allCards = 52%nat /\ NoDup allCards /\ forall card, In card allCards.
Proof.
  split; [reflexivity|]. split.
  - unfold allCards, suits, ranks. simpl.
    repeat (constructor; [simpl; intuition discriminate|]). constructor.
  - intros [s r]. destruct s, r; unfold allCards, suits, ranks; simpl; tauto.
Qed.



(** X20.  Toggling a selected card deselects it, leaves the other cards
    alone, clears the error, and makes a selection of distinct cards one
    shorter. *)
Theorem toggle_selected (card : PlayingCard) (st : State) :
  In card (selectedCards st) ->
  ~ In card (selectedCards (toggleCard card st))
  /\ (forall c, c <> card ->
        In c (selectedCards (toggleCard card st)) <-> In c (selectedCards st))
  /\ error (toggleCard card st) = ""%string
  /\ (NoDup (selectedCards st) ->
      S (List.length (selectedCards (toggleCard card st)))
      = List.length (selectedCards st)).
Proof.
  intros Hin. rewrite toggle_selected_eq by trivial. simpl. repeat split.
  - rewrite In_without. tauto.
  - rewrite In_without. tauto.
  - rewrite In_without. tauto.
  - intros Hnd. now apply length_without.
Qed.

Lemma toggle_selected_witness :
  ~ In (cardOf RA spades)
      (selectedCards (toggleCard (cardOf RA spades) (mkState royal_spades "")))
  /\ (forall c, c <> cardOf RA spades ->
        In c (selectedCards
                (toggleCard (cardOf RA spades) (mkState royal_spades "")))
        <-> In c (selectedCards (mkState royal_spades "")))
  /\ error (toggleCard (cardOf RA spades) (mkState royal_spades "")) = ""%string
  /\ (NoDup (selectedCards (mkState royal_spades "")) ->
      S (List.length
           (selectedCards
              (toggleCard (cardOf RA spades) (mkState royal_spades ""))))
      = List.length (selectedCards (mkState royal_spades ""))).
Proof.
  apply (toggle_selected (cardOf RA spades) (mkState royal_spades "")).
  simpl. tauto.
Defined.

(** X21.  Toggling an unselected card while fewer than five are selected
    appends it to the selection and clears the error. *)
Theorem toggle_adds (card : PlayingCard) (st : State) :
  ~ In card (selectedCards st) -> (List.length (selectedCards st) < 5)%nat ->
  toggleCard card st = mkState (selectedCards st ++ [card]) "".
Proof.
  intros Hnotin Hlen. rewrite toggle_unselected_eq by trivial.
  now rewrite (proj2 (Nat.ltb_lt _ _) Hlen).
Qed.

Lemma toggle_adds_witness :
  toggleCard (cardOf RA spades) initial
  = mkState (selectedCards initial ++ [cardOf RA spades]) "".
Proof.
  apply (toggle_adds (cardOf RA spades) initial).
  - simpl. tauto.
  - simpl. lia.
Defined.

(** X22.  Toggling an unselected card while five or more are selected leaves
    the selection as it is and sets the error. *)
Theorem toggle_refused (card : PlayingCard) (st : State) :
  ~ In card (selectedCards st) -> (5 <= List.length (selectedCards st))%nat ->
  toggleCard card st = mkState (selectedCards st) "You can only select 5 cards".
Proof.
  intros Hnotin Hlen. rewrite toggle_unselected_eq by trivial.
  now rewrite (proj2 (Nat.ltb_ge _ _) Hlen).
Qed.

Lemma toggle_refused_witness :
  toggleCard (cardOf R2 clubs) (mkState royal_spades "")
  = mkState (selectedCards (mkState royal_spades ""))
      "You can only select 5 cards".
Proof.
  apply (toggle_refused (cardOf R2 clubs) (mkState royal_spades "")).
  - simpl. intuition discriminate.
  - simpl. lia.
Defined.



(** X24.  A button of the grid is disabled exactly when toggling its card
    would be refused with the error. *)
Theorem disabled_iff_refused (st : State) (card : PlayingCard) :
  disabled st card = true
  <-> error (toggleCard card st) = "You can only select 5 cards"%string.
Proof.
  unfold disabled. rewrite andb_true_iff, negb_true_iff, Nat.leb_le.
  destruct (isSelected st card) eqn:E.
  - apply isSelected_In in E. rewrite toggle_selected_eq by trivial. simpl.
    split; [intros [_ H]; discriminate | discriminate].
  - assert (Hn : ~ In card (selectedCards st)).
    { intros H. apply isSelected_In in H. congruence. }
    rewrite toggle_unselected_eq by trivial.
    destruct (Nat.ltb_spec (List.length (selectedCards st)) 5); simpl.
    + split; [intros [H' _]; lia | discriminate].
    + split; [reflexivity | now split].
Qed.




Lemma enabled_no_error (st : State) (a : Action) :
  enabled st a = true -> error (act st a) = ""%string.
Proof.
  destruct a as [card|]; simpl; [|reflexivity].
  rewrite negb_true_iff. unfold disabled. intros Hd.
  destruct (isSelected st card) eqn:E.
  - apply isSelected_In in E. now rewrite toggle_selected_eq.
  - assert (Hn : ~ In card (selectedCards st)).
    { intros H. apply isSelected_In in H. congruence. }
    rewrite toggle_unselected_eq by trivial.
    rewrite andb_true_r in Hd. apply Nat.leb_gt in Hd.
    now rewrite (proj2 (Nat.ltb_lt _ _) Hd).
Qed.

(** X27.  As long as only enabled controls are clicked, no error is ever set
    or shown. *)
Theorem clicks_never_error (actions : list Action) :
  allowed initial actions = true ->
  error (run actions) = ""%string /\ showsError (run actions) = false.
Proof.
  assert (H : forall st, error st = ""%string -> allowed st actions = true ->
                         error (fold_left act actions st) = ""%string).
  { induction actions as [|a actions IH]; intros st He Ha; simpl; trivial.
    simpl in Ha. apply andb_true_iff in Ha. destruct Ha as [Hen Ha].
    apply IH; trivial. now apply enabled_no_error. }
  intros Ha. specialize (H initial eq_refl Ha). split; trivial.
  unfold showsError. fold (run actions) in H. now rewrite H.
Qed.

Lemma clicks_never_error_witness :
  error (run (map Toggle royal_spades ++ [Toggle (cardOf RA spades); Reset]))
  = ""%string
  /\ showsError
       (run (map Toggle royal_spades ++ [Toggle (cardOf RA spades); Reset]))
     = false.
Proof.
  apply (clicks_never_error
           (map Toggle royal_spades ++ [Toggle (cardOf RA spades); Reset])).
  reflexivity.
Defined.
